(** * Clinical BERT assertion API: request contract, model lifecycle, HTTP surface

    A shallow embedding of [app/schemas.py], [app/model.py] and [app/main.py].

    Modelling choices.
    - Text whose length and whitespace matter (sentences) is a list of Unicode
      code points, as a Python [str] is; labels and messages, which the code
      only copies and compares, are [string].
    - A confidence score is a rational: every finite binary64 value is one and
      the order agrees.  NaN and the infinities are outside the model.
    - Clock readings and the latencies computed from them are rationals too:
      the product with 1000 is exact here, where binary64 rounds it, so only
      whether a latency is zero, not its digits, is read off the model.
    - The Hugging Face hub, the CUDA query, the clock and the inference
      pipeline are the [World]; the module-level singletons of [app/model.py]
      are [Globals]; calls that leave the process are recorded in a trace. *)

From Stdlib Require Import String Ascii ZArith NArith QArith Bool Lia Lqa Arith List.
Import ListNotations.

Local Open Scope string_scope.
Local Open Scope nat_scope.
Local Open Scope list_scope.

(* ------------------------------------------------------------------------- *)
(** ** Python strings                                                         *)
(* ------------------------------------------------------------------------- *)

Module PyStr.

Definition codepoint := N.
Definition str := list codepoint.

(** [str.isspace] for one character: the code points for which CPython's
    [_PyUnicode_IsWhitespace] answers true. *)
Definition isspace (c : codepoint) : bool :=
  (((9 <=? c) && (c <=? 13))
   || ((28 <=? c) && (c <=? 32))
   || (c =? 133) || (c =? 160) || (c =? 5760)
   || ((8192 <=? c) && (c <=? 8202))
   || (c =? 8232) || (c =? 8233) || (c =? 8239) || (c =? 8287)
   || (c =? 12288))%N.

Fixpoint lstrip (s : str) : str :=
  match s with
  | [] => []
  | c :: rest => if isspace c then lstrip rest else s
  end.

Definition rstrip (s : str) : str := rev (lstrip (rev s)).

(** [s.strip()] with no argument. *)
Definition strip (s : str) : str := rstrip (lstrip s).

(** Truth value of a string: [not v] is [true] on the empty string only. *)
Definition truthy (s : str) : bool :=
  match s with [] => false | _ :: _ => true end.

(** An ASCII literal as a Python string. *)
Fixpoint of_string (s : string) : str :=
  match s with
  | EmptyString => []
  | String a rest => N_of_ascii a :: of_string rest
  end.

Definition eqb (a b : str) : bool :=
  if list_eq_dec N.eq_dec a b then true else false.

End PyStr.
Import PyStr.

(* ------------------------------------------------------------------------- *)
(** ** Exceptions and results                                                 *)
(* ------------------------------------------------------------------------- *)

(** The exception classes the handlers tell apart.  [RuntimeErrorSubclass] is
    any class deriving from [RuntimeError]; [HTTPException] carries its status
    code and has its detail as message; [OtherException] is any other class
    deriving from [Exception]. *)
Inductive exn_class : Type :=
| RuntimeError
| RuntimeErrorSubclass (name : string)
| ValueError
| IndexError
| ValidationError
| HTTPException (status_code : nat)
| OtherException (name : string).

Record exn : Type := mkExn { exn_cls : exn_class; exn_msg : string }.

(** [isinstance(exc, RuntimeError)]: what [except RuntimeError] catches. *)
Definition isinstance_RuntimeError (e : exn) : bool :=
  match exn_cls e with
  | RuntimeError | RuntimeErrorSubclass _ => true
  | _ => false
  end.

Inductive result (A : Type) : Type :=
| Ok (a : A)
| Raise (e : exn).
Arguments Ok {A} a.
Arguments Raise {A} e.

(* ------------------------------------------------------------------------- *)
(** ** Request bodies                                                         *)
(* ------------------------------------------------------------------------- *)

(** A decoded JSON body, as [json.loads] hands it to the validation layer. *)
#[local] Unset Elimination Schemes.
Inductive json : Type :=
| JNull
| JBool (b : bool)
| JNumber (q : Q)
| JString (s : str)
| JArray (items : list json)
| JObject (fields : list (string * json)).
#[local] Set Elimination Schemes.

Fixpoint assoc (k : string) (fields : list (string * json)) : option json :=
  match fields with
  | [] => None
  | (k', v) :: rest => if String.eqb k k' then Some v else assoc k rest
  end.

(** The value of field [k] of a body; [None] when the body is not an object or
    has no such field. *)
Definition field (k : string) (body : json) : option json :=
  match body with
  | JObject fields => assoc k fields
  | _ => None
  end.

(* ------------------------------------------------------------------------- *)
(** ** app/schemas.py                                                         *)
(* ------------------------------------------------------------------------- *)

Module Schemas.

(** Why a request body is refused.  Pydantic lists every violation in the
    422 body; the first one is kept here. *)
Inductive violation : Type :=
| Missing (fld : string)
| StringType
| StringTooShort
| StringTooLong
| ListType
| ListTooShort
| ListTooLong
| ValueErr (msg : string).

Inductive validated (A : Type) : Type :=
| Valid (a : A)
| Invalid (v : violation).
Arguments Valid {A} a.
Arguments Invalid {A} v.

(** A [str] field with optional [min_length] / [max_length], counted in
    characters on the value as received. *)
Definition str_field (min_length : nat) (max_length : option nat) (v : json)
  : validated str :=
  match v with
  | JString s =>
      if length s <? min_length then Invalid StringTooShort
      else match max_length with
           | Some mx => if mx <? length s then Invalid StringTooLong else Valid s
           | None => Valid s
           end
  | _ => Invalid StringType
  end.

(** Elements of a [list[str]]: each one a string, no bound on its length. *)
Fixpoint str_items (items : list json) : validated (list str) :=
  match items with
  | [] => Valid []
  | v :: rest =>
      match str_field 0 None v with
      | Invalid e => Invalid e
      | Valid s =>
          match str_items rest with
          | Invalid e => Invalid e
          | Valid ss => Valid (s :: ss)
          end
      end
  end.

(** A [list[str]] field with [min_length] / [max_length] on the list. *)
Definition list_str_field (min_length max_length : nat) (v : json)
  : validated (list str) :=
  match v with
  | JArray items =>
      if length items <? min_length then Invalid ListTooShort
      else if max_length <? length items then Invalid ListTooLong
      else str_items items
  | _ => Invalid ListType
  end.

(** *** PredictRequest *)

Record PredictRequest : Type := mkPredictRequest { sentence : str }.

(** [@field_validator("sentence")] *)
Definition sentence_must_not_be_blank (v : str) : validated str :=
  if negb (truthy (strip v))
  then Invalid (ValueErr "sentence must not be blank or whitespace only.")
  else Valid (strip v).

Definition PredictRequest_validate (body : json) : validated PredictRequest :=
  match field "sentence" body with
  | None => Invalid (Missing "sentence")
  | Some v =>
      match str_field 1 (Some 2048) v with
      | Invalid e => Invalid e
      | Valid s =>
          match sentence_must_not_be_blank s with
          | Invalid e => Invalid e
          | Valid s' => Valid (mkPredictRequest s')
          end
      end
  end.

(** *** BatchPredictRequest *)

Record BatchPredictRequest : Type := mkBatchPredictRequest { sentences : list str }.

(** [@field_validator("sentences")]: the loop over [enumerate(v)], stopping
    at the first blank element; [isinstance(s, str)] holds of every element
    that reached the validator. *)
Fixpoint validate_sentences (v : list str) : validated (list str) :=
  match v with
  | [] => Valid []
  | s :: rest =>
      if negb (truthy (strip s))
      then Invalid (ValueErr "sentences[i] is empty or not a string.")
      else match validate_sentences rest with
           | Invalid e => Invalid e
           | Valid cleaned => Valid (strip s :: cleaned)
           end
  end.

Definition BatchPredictRequest_validate (body : json)
  : validated BatchPredictRequest :=
  match field "sentences" body with
  | None => Invalid (Missing "sentences")
  | Some v =>
      match list_str_field 1 64 v with
      | Invalid e => Invalid e
      | Valid ss =>
          match validate_sentences ss with
          | Invalid e => Invalid e
          | Valid cleaned => Valid (mkBatchPredictRequest cleaned)
          end
      end
  end.

(** *** Response models *)

(** [Field(ge=0.0, le=1.0)] *)
Definition score_in_range (s : Q) : bool := Qle_bool 0 s && Qle_bool s 1.

Record PredictResponse : Type :=
  mkPredictResponse { label : string; score : Q }.

Record BatchPredictItem : Type :=
  mkBatchPredictItem { item_sentence : str; item_label : string; item_score : Q }.

Record BatchPredictResponse : Type :=
  mkBatchPredictResponse { results : list BatchPredictItem; count : nat }.

Record HealthResponse : Type :=
  mkHealthResponse
    { status : string; model_name : string; model_loaded : bool; device : string }.

End Schemas.
Import Schemas.

(* ------------------------------------------------------------------------- *)
(** ** Python builtins on numbers                                             *)
(* ------------------------------------------------------------------------- *)

Fixpoint pow10 (n : nat) : positive :=
  match n with
  | O => 1%positive
  | S k => (10 * pow10 k)%positive
  end.

(** [round(x, ndigits)]: the multiple of [10^-ndigits] nearest to [x], a tie
    going to the even one.  (Python then returns the binary64 nearest to that
    decimal; the conversion is monotone and keeps 0 and 1.) *)
Definition py_round (x : Q) (ndigits : nat) : Q :=
  let scale := pow10 ndigits in
  let n := (Qnum x * Zpos scale)%Z in
  let d := Zpos (Qden x) in
  let fl := (n / d)%Z in
  let r := (n mod d)%Z in
  let k := match (2 * r ?= d)%Z with
           | Lt => fl
           | Gt => (fl + 1)%Z
           | Eq => if Z.even fl then fl else (fl + 1)%Z
           end in
  Qmake k scale.

(** [a > b] on scores. *)
Definition Qgtb (a b : Q) : bool := negb (Qle_bool a b).

(* ------------------------------------------------------------------------- *)
(** ** The world outside the process, and the process state                   *)
(* ------------------------------------------------------------------------- *)

Inductive Tokenizer : Type := TokenizerOf (name : string).
Inductive SequenceClassifier : Type := ClassifierOf (name : string).

(** The object built by [transformers.pipeline(...)]. *)
Record Pipeline : Type := mkPipeline
  { task : string;
    pipe_model : SequenceClassifier;
    pipe_tokenizer : Tokenizer;
    pipe_device : Z;
    top_k : option nat;
    truncation : bool;
    max_length : nat }.

(** One [{"label": ..., "score": ...}] dictionary of the pipeline's output. *)
Record Entry : Type := mkEntry { entry_label : string; entry_score : Q }.

(** The two ways the pipeline object is called. *)
Inductive pipe_input : Type :=
| Single (sentence : str)
| Many (sentences : list str) (batch_size : nat).

Record World : Type := mkWorld
  { cuda_is_available : bool;
    (** the value of the n-th reading of [time.perf_counter()] *)
    perf_counter_at : nat -> Q;
    tokenizer_from_pretrained : string -> result Tokenizer;
    model_from_pretrained : string -> result SequenceClassifier;
    (** calling the pipeline object: a list of score lists, or a failure *)
    pipeline_call : Pipeline -> pipe_input -> result (list (list Entry)) }.

(** The module-level singletons of [app/model.py]. *)
Record Globals : Type := mkGlobals
  { _pipeline : option Pipeline;
    _load_time_ms : option Q }.

Inductive level : Type := INFO | DEBUG | ERROR.

Inductive log_msg : Type :=
| MsgAlreadyLoaded
| MsgLoading (name : string)
| MsgRunningOn (device_name : string)
| MsgLoaded (elapsed : Q)
| MsgPrediction (lbl : string) (sc : Q) (latency_ms : Q)
| MsgBatchPrediction (n : nat) (latency_ms : Q)
| MsgStartup
| MsgReady
| MsgPredictionError (sentence : str) (exc : exn)
| MsgBatchPredictionError (exc : exn)
| MsgUnhandled (exc : exn).

(** What the process does that is visible outside the running function. *)
Inductive event : Type :=
| Log (lvl : level) (msg : log_msg)
| LoadTokenizer (name : string)
| LoadModel (name : string)
| Infer (p : Pipeline) (inp : pipe_input).

Record Machine : Type := mkMachine
  { globals : Globals;
    clock_reads : nat;
    trace : list event }.

(** Computations that read and write the machine and may raise. *)
Definition M (A : Type) : Type := Machine -> result A * Machine.

Definition ret {A} (a : A) : M A := fun m => (Ok a, m).

Definition raise {A} (e : exn) : M A := fun m => (Raise e, m).

Definition bind {A B} (c : M A) (k : A -> M B) : M B :=
  fun m => match c m with
           | (Ok a, m') => k a m'
           | (Raise e, m') => (Raise e, m')
           end.

(** [try: c  except Exception as exc: h exc] *)
Definition try_except {A} (c : M A) (h : exn -> M A) : M A :=
  fun m => match c m with
           | (Ok a, m') => (Ok a, m')
           | (Raise e, m') => h e m'
           end.

Definition lift {A} (r : result A) : M A := fun m => (r, m).

Declare Scope m_scope.
Delimit Scope m_scope with M.
Notation "x <- c ;; k" := (bind c (fun x => k))
  (at level 61, c at next level, right associativity) : m_scope.
Notation "c ;;; k" := (bind c (fun _ => k))
  (at level 61, right associativity) : m_scope.
Local Open Scope m_scope.

Definition emit (e : event) : M unit :=
  fun m => (Ok tt, mkMachine (globals m) (clock_reads m) (trace m ++ [e])).

Definition log (lvl : level) (msg : log_msg) : M unit := emit (Log lvl msg).

Definition get_globals : M Globals := fun m => (Ok (globals m), m).

Definition put_globals (g : Globals) : M unit :=
  fun m => (Ok tt, mkMachine g (clock_reads m) (trace m)).

Definition perf_counter (w : World) : M Q :=
  fun m => (Ok (perf_counter_at w (clock_reads m)),
            mkMachine (globals m) (S (clock_reads m)) (trace m)).

(** The pipeline calls recorded in a trace, in order. *)
Definition inferences (t : list event) : list pipe_input :=
  flat_map (fun e => match e with Infer _ inp => [inp] | _ => [] end) t.

(** The hub downloads recorded in a trace, in order. *)
Definition loads (t : list event) : list event :=
  filter (fun e => match e with LoadTokenizer _ | LoadModel _ => true | _ => false end) t.

(* ------------------------------------------------------------------------- *)
(** ** app/model.py                                                           *)
(* ------------------------------------------------------------------------- *)

Module Model.

Definition MODEL_NAME : string := "bvanaken/clinical-assertion-negation-bert".

Definition load_model (w : World) : M unit :=
  g <- get_globals ;;
  match _pipeline g with
  | Some _ => log INFO MsgAlreadyLoaded
  | None =>
      log INFO (MsgLoading MODEL_NAME) ;;;
      start <- perf_counter w ;;
      let device := if cuda_is_available w then 0%Z else (-1)%Z in
      let device_name := if (device =? 0)%Z then "GPU (CUDA)" else "CPU" in
      log INFO (MsgRunningOn device_name) ;;;
      emit (LoadTokenizer MODEL_NAME) ;;;
      tokenizer <- lift (tokenizer_from_pretrained w MODEL_NAME) ;;
      emit (LoadModel MODEL_NAME) ;;;
      model <- lift (model_from_pretrained w MODEL_NAME) ;;
      let pipe := mkPipeline "text-classification" model tokenizer device
                             None true 512 in
      g1 <- get_globals ;;
      put_globals (mkGlobals (Some pipe) (_load_time_ms g1)) ;;;
      stop <- perf_counter w ;;
      let elapsed := ((stop - start) * 1000)%Q in
      g2 <- get_globals ;;
      put_globals (mkGlobals (_pipeline g2) (Some elapsed)) ;;;
      log INFO (MsgLoaded elapsed)
  end.

Definition get_pipeline : M Pipeline :=
  g <- get_globals ;;
  match _pipeline g with
  | None =>
      raise (mkExn RuntimeError
               ("Model pipeline is not initialised. "
                ++ "Ensure load_model() was called during application startup."))
  | Some p => ret p
  end.

(** Calling the cached pipeline object. *)
Definition call (w : World) (pipe : Pipeline) (inp : pipe_input)
  : M (list (list Entry)) :=
  emit (Infer pipe inp) ;;;
  lift (pipeline_call w pipe inp).

(** [raw[0]] *)
Definition item0 {A} (raw : list A) : result A :=
  match raw with
  | [] => Raise (mkExn IndexError "list index out of range")
  | x :: _ => Ok x
  end.

(** The loop of [max(iterable, key=...)]: a later entry replaces the one
    kept only when its score is strictly greater. *)
Fixpoint max_from (best : Entry) (rest : list Entry) : Entry :=
  match rest with
  | [] => best
  | e :: rest' =>
      max_from (if Qgtb (entry_score e) (entry_score best) then e else best) rest'
  end.

(** [max(all_scores, key=lambda x: x["score"])] *)
Definition max_by_score (all_scores : list Entry) : result Entry :=
  match all_scores with
  | [] => Raise (mkExn ValueError "max() arg is an empty sequence")
  | e :: rest => Ok (max_from e rest)
  end.

(** The dictionary [predict_single] returns. *)
Record Prediction : Type := mkPrediction { pred_label : string; pred_score : Q }.

(** One dictionary of the list [predict_batch] returns. *)
Record BatchPrediction : Type :=
  mkBatchPrediction { bp_sentence : str; bp_label : string; bp_score : Q }.

Definition predict_single (w : World) (sentence : str) : M Prediction :=
  pipe <- get_pipeline ;;
  start <- perf_counter w ;;
  raw <- call w pipe (Single sentence) ;;
  stop <- perf_counter w ;;
  let latency_ms := ((stop - start) * 1000)%Q in
  all_scores <- lift (item0 raw) ;;
  best <- lift (max_by_score all_scores) ;;
  log DEBUG (MsgPrediction (entry_label best) (entry_score best) latency_ms) ;;;
  ret (mkPrediction (entry_label best) (py_round (entry_score best) 4)).

(** The body of [for sentence, all_scores in zip(sentences, raw)]. *)
Fixpoint batch_loop (pairs : list (str * list Entry)) : result (list BatchPrediction) :=
  match pairs with
  | [] => Ok []
  | (sentence, all_scores) :: rest =>
      match max_by_score all_scores with
      | Raise e => Raise e
      | Ok best =>
          match batch_loop rest with
          | Raise e => Raise e
          | Ok results =>
              Ok (mkBatchPrediction sentence (entry_label best)
                    (py_round (entry_score best) 4) :: results)
          end
      end
  end.

Definition predict_batch (w : World) (sentences : list str) : M (list BatchPrediction) :=
  pipe <- get_pipeline ;;
  start <- perf_counter w ;;
  raw <- call w pipe (Many sentences 16) ;;
  stop <- perf_counter w ;;
  let latency_ms := ((stop - start) * 1000)%Q in
  results <- lift (batch_loop (combine sentences raw)) ;;
  log DEBUG (MsgBatchPrediction (length sentences) latency_ms) ;;;
  ret results.

(** The label set the service documents. *)
Definition LABELS : list string := ["PRESENT"; "ABSENT"; "CONDITIONAL"].

Record ModelInfo : Type := mkModelInfo
  { info_model_name : string;
    info_loaded : bool;
    info_load_time_ms : option Q;
    info_device : string;
    info_labels : list string }.

Definition get_model_info (w : World) : M ModelInfo :=
  g <- get_globals ;;
  ret (mkModelInfo
         MODEL_NAME
         (match _pipeline g with Some _ => true | None => false end)
         (match _load_time_ms g with
          | Some t => if Qeq_bool t 0 then None else Some (py_round t 1)
          | None => None
          end)
         (if cuda_is_available w then "GPU (CUDA)" else "CPU")
         LABELS).

End Model.
Import Model.

(* ------------------------------------------------------------------------- *)
(** ** app/main.py                                                            *)
(* ------------------------------------------------------------------------- *)

Module Main.

Inductive body : Type :=
| Detail (msg : string)
| ValidationDetail (v : violation)
| PredictBody (r : PredictResponse)
| BatchBody (r : BatchPredictResponse)
| HealthBody (r : HealthResponse).

Record Response : Type := mkResponse { status_code : nat; content : body }.

(** Startup half of [lifespan]. *)
Definition lifespan (w : World) : M unit :=
  log INFO MsgStartup ;;;
  load_model w ;;;
  log INFO MsgReady.

(** [@app.exception_handler(Exception)] *)
Definition generic_exception_handler (exc : exn) : M Response :=
  log ERROR (MsgUnhandled exc) ;;;
  ret (mkResponse 500 (Detail "Internal server error. Please try again later.")).

(** Constructing a response model checks its field constraints. *)
Definition PredictResponse_new (r : Prediction) : M PredictResponse :=
  if score_in_range (pred_score r)
  then ret (mkPredictResponse (pred_label r) (pred_score r))
  else raise (mkExn ValidationError "score").

Definition BatchPredictItem_new (r : BatchPrediction) : result BatchPredictItem :=
  if score_in_range (bp_score r)
  then Ok (mkBatchPredictItem (bp_sentence r) (bp_label r) (bp_score r))
  else Raise (mkExn ValidationError "score").

(** The comprehension building one [BatchPredictItem] per result, in order. *)
Fixpoint items_of (rs : list BatchPrediction) : result (list BatchPredictItem) :=
  match rs with
  | [] => Ok []
  | r :: rest =>
      match BatchPredictItem_new r with
      | Raise e => Raise e
      | Ok it =>
          match items_of rest with
          | Raise e => Raise e
          | Ok its => Ok (it :: its)
          end
      end
  end.

Definition health (w : World) : M HealthResponse :=
  info <- get_model_info w ;;
  if negb (info_loaded info)
  then raise (mkExn (HTTPException 503)
                "Model is not yet loaded. Service is not ready.")
  else ret (mkHealthResponse "ok" (info_model_name info) (info_loaded info)
              (info_device info)).

Definition predict (w : World) (request : PredictRequest) : M PredictResponse :=
  result <- try_except (predict_single w (sentence request))
              (fun exc =>
                 if isinstance_RuntimeError exc
                 then raise (mkExn (HTTPException 503) (exn_msg exc))
                 else log ERROR (MsgPredictionError (sentence request) exc) ;;;
                      raise (mkExn (HTTPException 500) "Prediction failed.")) ;;
  PredictResponse_new result.

Definition predict_batch_endpoint (w : World) (request : BatchPredictRequest)
  : M BatchPredictResponse :=
  results <- try_except (predict_batch w (sentences request))
               (fun exc =>
                  if isinstance_RuntimeError exc
                  then raise (mkExn (HTTPException 503) (exn_msg exc))
                  else log ERROR (MsgBatchPredictionError exc) ;;;
                       raise (mkExn (HTTPException 500) "Batch prediction failed.")) ;;
  items <- lift (items_of results) ;;
  ret (mkBatchPredictResponse items (length items)).

(** What the framework does with a handler's outcome: a returned model is a
    200; an [HTTPException] is its status with its detail; any other
    exception goes to [generic_exception_handler]. *)
Definition respond {A} (wrap : A -> body) (handler : M A) : Machine -> Response * Machine :=
  fun m =>
    match handler m with
    | (Ok a, m') => (mkResponse 200 (wrap a), m')
    | (Raise e, m') =>
        match exn_cls e with
        | HTTPException code => (mkResponse code (Detail (exn_msg e)), m')
        | _ => match generic_exception_handler e m' with
               | (Ok r, m'') => (r, m'')
               | (Raise _, m'') =>
                   (mkResponse 500 (Detail "Internal Server Error"), m'')
               end
        end
    end.

(** The routes: the body is validated against the request model first; a
    refused body is a 422 and the handler is not entered. *)
Definition GET_health (w : World) : Machine -> Response * Machine :=
  respond HealthBody (health w).

Definition POST_predict (w : World) (b : json) : Machine -> Response * Machine :=
  match PredictRequest_validate b with
  | Invalid v => fun m => (mkResponse 422 (ValidationDetail v), m)
  | Valid request => respond PredictBody (predict w request)
  end.

Definition POST_predict_batch (w : World) (b : json) : Machine -> Response * Machine :=
  match BatchPredictRequest_validate b with
  | Invalid v => fun m => (mkResponse 422 (ValidationDetail v), m)
  | Valid request => respond BatchBody (predict_batch_endpoint w request)
  end.

End Main.
Import Main.

(* ------------------------------------------------------------------------- *)
(** ** Notions used to state the properties                                   *)
(* ------------------------------------------------------------------------- *)

(** The exception [get_pipeline] raises. *)
Definition not_initialised : exn :=
  mkExn RuntimeError
    "Model pipeline is not initialised. Ensure load_model() was called during application startup.".

(** The machine with one more event in its trace. *)
Definition logged (m : Machine) (e : event) : Machine :=
  mkMachine (globals m) (clock_reads m) (trace m ++ [e]).

(** The machine after a timed pipeline call: two clock readings and one
    [Infer] event, followed by what the caller logs. *)
Definition after_call (m : Machine) (p : Pipeline) (inp : pipe_input)
           (reads : nat) (logs : list event) : Machine :=
  mkMachine (globals m) (reads + clock_reads m)
            ((trace m ++ [Infer p inp]) ++ logs).

(** The body [generic_exception_handler] answers with. *)
Definition internal_server_error : Response :=
  mkResponse 500 (Detail "Internal server error. Please try again later.").

(** [best] is the first entry of [l] with the greatest score: every entry
    before it scores strictly less, no entry after it scores more. *)
Definition first_argmax (l : list Entry) (best : Entry) : Prop :=
  exists before after,
    l = before ++ best :: after
    /\ (forall e, In e before -> (entry_score e < entry_score best)%Q)
    /\ (forall e, In e after -> (entry_score e <= entry_score best)%Q).

(** A result built from sentence [s] and score list [sc]. *)
Definition result_of (s : str) (sc : list Entry) (r : BatchPrediction) : Prop :=
  bp_sentence r = s
  /\ exists best, first_argmax sc best
                  /\ bp_label r = entry_label best
                  /\ bp_score r = py_round (entry_score best) 4.

(** The status code of a route's answer. *)
Definition status_of (r : Response * Machine) : nat := status_code (fst r).

(** The device argument [load_model] passes to the pipeline constructor. *)
Definition chosen_device (w : World) : Z :=
  if cuda_is_available w then 0%Z else (-1)%Z.

(** The latency [load_model] records, from the two clock readings it takes. *)
Definition load_latency (w : World) (m : Machine) : Q :=
  ((perf_counter_at w (S (clock_reads m)) - perf_counter_at w (clock_reads m)) * 1000)%Q.

(* ------------------------------------------------------------------------- *)
(** ** Further notions                                                        *)
(* ------------------------------------------------------------------------- *)

(** The exception [max] raises on an empty list. *)
Definition empty_max : exn := mkExn ValueError "max() arg is an empty sequence".

(** A string with no whitespace at either end (the empty string included). *)
Definition trimmed (u : str) : Prop :=
  lstrip u = u /\ lstrip (rev u) = rev u.

(** The body of a single-sentence request carrying [s]. *)
Definition single_body (s : str) : json := JObject [("sentence", JString s)].

(** The body of a batch request carrying [ss]. *)
Definition batch_body (ss : list str) : json :=
  JObject [("sentences", JArray (map JString ss))].

(** [m'] is [m] with the same singletons and the events [evs] appended to
    its trace. *)
Definition same_globals_more_trace (m m' : Machine) (evs : list event) : Prop :=
  globals m' = globals m /\ trace m' = trace m ++ evs.

(* ------------------------------------------------------------------------- *)
(** ** Sample worlds and requests                                             *)
(* ------------------------------------------------------------------------- *)

Module Samples.

Definition three_scores (present absent conditional : Q) : list Entry :=
  [mkEntry "PRESENT" present; mkEntry "ABSENT" absent;
   mkEntry "CONDITIONAL" conditional].

Definition hub_ok (run : Pipeline -> pipe_input -> result (list (list Entry)))
  : World :=
  mkWorld false (fun n => inject_Z (Z.of_nat n))
    (fun name => Ok (TokenizerOf name))
    (fun name => Ok (ClassifierOf name))
    run.

(** A provider that answers every sentence with the same three scores. *)
Definition w_ok : World :=
  hub_ok (fun _ inp =>
            match inp with
            | Single _ => Ok [three_scores (1 # 10) (8 # 10) (1 # 10)]
            | Many ss _ => Ok (map (fun _ => three_scores (1 # 10) (8 # 10) (1 # 10)) ss)
            end).

(** A provider that answers a batch with the score list of its first
    sentence only. *)
Definition w_short : World :=
  hub_ok (fun _ inp =>
            match inp with
            | Single _ => Ok [three_scores (1 # 10) (8 # 10) (1 # 10)]
            | Many _ _ => Ok [three_scores (1 # 10) (8 # 10) (1 # 10)]
            end).

(** A provider whose model configuration names its classes differently. *)
Definition w_other_labels : World :=
  hub_ok (fun _ _ => Ok [[mkEntry "LABEL_0" (2 # 10); mkEntry "LABEL_1" (7 # 10);
                           mkEntry "LABEL_2" (1 # 10)]]).

(** A provider with two entries sharing the top score. *)
Definition w_tie : World :=
  hub_ok (fun _ _ => Ok [[mkEntry "CONDITIONAL" (1 # 5); mkEntry "PRESENT" (2 # 5);
                           mkEntry "ABSENT" (2 # 5)]]).

(** A provider whose runtime fails with a [RuntimeError]. *)
Definition cuda_oom : exn :=
  mkExn RuntimeError "CUDA out of memory. Tried to allocate 20.00 MiB".

Definition w_runtime_error : World := hub_ok (fun _ _ => Raise cuda_oom).

(** A provider failing with an exception of another class. *)
Definition w_key_error : World :=
  hub_ok (fun _ _ => Raise (mkExn (OtherException "KeyError") "input_ids")).

(** A world with a GPU. *)
Definition w_gpu : World :=
  mkWorld true (fun n => inject_Z (Z.of_nat n))
    (fun name => Ok (TokenizerOf name))
    (fun name => Ok (ClassifierOf name))
    (fun _ _ => Ok []).

(** The pipeline object [load_model] builds on a machine without a GPU. *)
Definition cpu_pipeline : Pipeline :=
  mkPipeline "text-classification" (ClassifierOf MODEL_NAME) (TokenizerOf MODEL_NAME)
             (-1) None true 512.

(** The process right after import, and after a successful startup. *)
Definition m_boot : Machine := mkMachine (mkGlobals None None) 0 [].

Definition m_ready : Machine :=
  let m := snd (lifespan w_ok m_boot) in
  mkMachine (globals m) (clock_reads m) [].

Definition denies : str := of_string "The patient denies chest pain.".
Definition history : str := of_string "He has a history of hypertension.".

Definition body_one : json :=
  JObject [("sentence", JString (of_string "  The patient denies chest pain. "))].

Definition body_two : json :=
  JObject [("sentences", JArray [JString denies; JString history])].

Definition long_sentence : str := repeat 97%N 2049.

Definition body_long_single : json :=
  JObject [("sentence", JString long_sentence)].

Definition body_long_batch : json :=
  JObject [("sentences", JArray [JString long_sentence])].

End Samples.

Import Samples.

(** Further sample worlds. *)
Module MoreSamples.

Definition hub_unreachable : exn :=
  mkExn (OtherException "OSError") "We couldn't connect to 'https://huggingface.co'".

(** A world whose tokenizer download fails. *)
Definition w_hub_down : World :=
  mkWorld false (fun n => inject_Z (Z.of_nat n))
    (fun _ => Raise hub_unreachable)
    (fun name => Ok (ClassifierOf name))
    (fun _ _ => Ok []).

(** A world whose clock stands still. *)
Definition w_frozen_clock : World :=
  mkWorld false (fun _ => 5%Q)
    (fun name => Ok (TokenizerOf name))
    (fun name => Ok (ClassifierOf name))
    (fun _ _ => Ok []).

(** A provider answering a sentence with no score list at all, and a batch
    with an empty score list for its second sentence. *)
Definition w_empty_answers : World :=
  hub_ok (fun _ inp =>
            match inp with
            | Single _ => Ok []
            | Many _ _ => Ok [three_scores (1 # 10) (8 # 10) (1 # 10); []]
            end).

(** A provider whose top score exceeds 1. *)
Definition w_score_above_one : World :=
  hub_ok (fun _ _ => Ok [[mkEntry "PRESENT" (3 # 2); mkEntry "ABSENT" (1 # 10)]]).

End MoreSamples.
Import MoreSamples.

Ltac unfold_m :=
  unfold log in *;
  unfold bind, ret, raise, lift, try_except, emit, get_globals,
    put_globals, perf_counter in *.

(* ------------------------------------------------------------------------- *)
(** ** Strings                                                                *)
(* ------------------------------------------------------------------------- *)

Lemma truthy_true_iff (s : str) : truthy s = true <-> s <> [].
Proof.
  destruct s; simpl; split; intro H; congruence.
Qed.

Lemma lstrip_length (s : str) : length (lstrip s) <= length s.
Proof.
  induction s as [|c rest IH]; simpl; [lia|].
  destruct (isspace c); simpl; lia.
Qed.

Lemma strip_length (s : str) : length (strip s) <= length s.
Proof.
  unfold strip, rstrip.
  rewrite length_rev.
  pose proof (lstrip_length (rev (lstrip s))) as H1.
  rewrite length_rev in H1.
  pose proof (lstrip_length s). lia.
Qed.

Lemma lstrip_all_space (s : str) :
  forallb isspace s = true -> lstrip s = [].
Proof.
  induction s as [|c rest IH]; simpl; [reflexivity|].
  destruct (isspace c); simpl; [exact IH | discriminate].
Qed.

(** A string made of whitespace only is blank. *)
Lemma strip_all_space (s : str) : forallb isspace s = true -> strip s = [].
Proof.
  intro H. unfold strip. rewrite (lstrip_all_space s H). reflexivity.
Qed.

(* ------------------------------------------------------------------------- *)
(** ** Request validation                                                     *)
(* ------------------------------------------------------------------------- *)

Lemma str_field_valid (mn : nat) (mx : nat) (v : json) (s : str) :
  str_field mn (Some mx) v = Valid s <->
  v = JString s /\ mn <= length s <= mx.
Proof.
  unfold str_field. destruct v; try (split; [discriminate | intros [H _]; discriminate]).
  destruct (Nat.ltb_spec (length s0) mn).
  - split; [discriminate|]. intros [Hs Hl]. injection Hs as ->. lia.
  - destruct (Nat.ltb_spec mx (length s0)).
    + split; [discriminate|]. intros [Hs Hl]. injection Hs as ->. lia.
    + split.
      * intro Hv. injection Hv as ->. split; [reflexivity | lia].
      * intros [Hs _]. injection Hs as ->. reflexivity.
Qed.

Lemma sentence_must_not_be_blank_valid (v s : str) :
  sentence_must_not_be_blank v = Valid s <-> strip v <> [] /\ s = strip v.
Proof.
  unfold sentence_must_not_be_blank.
  destruct (truthy (strip v)) eqn:Ht; simpl.
  - apply truthy_true_iff in Ht. split.
    + intro H. injection H as <-. auto.
    + intros [_ ->]. reflexivity.
  - split; [discriminate|]. intros [Hne _].
    apply truthy_true_iff in Hne. congruence.
Qed.

(** What a body must look like for [PredictRequest] to accept it, and what the
    accepted request holds. *)
Lemma PredictRequest_validate_valid (b : json) (req : PredictRequest) :
  PredictRequest_validate b = Valid req <->
  exists s, field "sentence" b = Some (JString s)
            /\ 1 <= length s <= 2048
            /\ strip s <> []
            /\ req = mkPredictRequest (strip s).
Proof.
  unfold PredictRequest_validate.
  destruct (field "sentence" b) as [v|].
  2:{ split; [discriminate | intros (s & H & _); discriminate]. }
  destruct (str_field 1 (Some 2048) v) as [s|e] eqn:Hf.
  - apply str_field_valid in Hf as [-> Hlen].
    destruct (sentence_must_not_be_blank s) as [s'|e] eqn:Hb.
    + apply sentence_must_not_be_blank_valid in Hb as [Hne ->].
      split.
      * intro H. injection H as <-. exists s. auto.
      * intros (s0 & Hs & _ & _ & ->). injection Hs as ->. reflexivity.
    + split; [discriminate|].
      intros (s0 & Hs & _ & Hne & _). injection Hs as <-.
      assert (sentence_must_not_be_blank s = Valid (strip s)) as Hv
          by (apply sentence_must_not_be_blank_valid; auto).
      congruence.
  - split; [discriminate|].
    intros (s & Hs & Hlen & _). injection Hs as ->.
    assert (str_field 1 (Some 2048) (JString s) = Valid s) as Hv
        by (apply str_field_valid; auto).
    congruence.
Qed.

(* ------------------------------------------------------------------------- *)
(** ** Running the lifecycle manager                                          *)
(* ------------------------------------------------------------------------- *)

Lemma get_pipeline_unset (m : Machine) :
  _pipeline (globals m) = None -> get_pipeline m = (Raise not_initialised, m).
Proof.
  intro H. unfold get_pipeline. unfold_m. rewrite H. reflexivity.
Qed.

Lemma get_pipeline_set (m : Machine) (p : Pipeline) :
  _pipeline (globals m) = Some p -> get_pipeline m = (Ok p, m).
Proof.
  intro H. unfold get_pipeline. unfold_m. rewrite H. reflexivity.
Qed.

Lemma predict_single_unset (w : World) (s : str) (m : Machine) :
  _pipeline (globals m) = None ->
  predict_single w s m = (Raise not_initialised, m).
Proof.
  intro H. unfold predict_single, bind at 1. rewrite (get_pipeline_unset m H).
  reflexivity.
Qed.

Lemma predict_batch_unset (w : World) (ss : list str) (m : Machine) :
  _pipeline (globals m) = None ->
  predict_batch w ss m = (Raise not_initialised, m).
Proof.
  intro H. unfold predict_batch, bind at 1. rewrite (get_pipeline_unset m H).
  reflexivity.
Qed.

(** [predict_single] on a loaded model, case by case on what the provider
    does. *)
Lemma predict_single_set (w : World) (s : str) (m : Machine) (p : Pipeline) :
  _pipeline (globals m) = Some p ->
  predict_single w s m =
  match pipeline_call w p (Single s) with
  | Raise e => (Raise e, after_call m p (Single s) 1 [])
  | Ok raw =>
      match item0 raw with
      | Raise e => (Raise e, after_call m p (Single s) 2 [])
      | Ok all_scores =>
          match max_by_score all_scores with
          | Raise e => (Raise e, after_call m p (Single s) 2 [])
          | Ok best =>
              (Ok (mkPrediction (entry_label best) (py_round (entry_score best) 4)),
               after_call m p (Single s) 2
                 [Log DEBUG
                    (MsgPrediction (entry_label best) (entry_score best)
                       ((perf_counter_at w (S (clock_reads m))
                         - perf_counter_at w (clock_reads m)) * 1000)%Q)])
          end
      end
  end.
Proof.
  intro H. unfold predict_single, bind at 1. rewrite (get_pipeline_set m p H).
  unfold call, after_call. unfold_m. simpl.
  destruct (pipeline_call w p (Single s)) as [raw|e]; simpl.
  2:{ rewrite app_nil_r. reflexivity. }
  destruct (item0 raw) as [all_scores|e]; simpl.
  2:{ rewrite app_nil_r. reflexivity. }
  destruct (max_by_score all_scores) as [best|e]; simpl.
  2:{ rewrite app_nil_r. reflexivity. }
  reflexivity.
Qed.

(** [predict_batch] on a loaded model. *)
Lemma predict_batch_set (w : World) (ss : list str) (m : Machine) (p : Pipeline) :
  _pipeline (globals m) = Some p ->
  predict_batch w ss m =
  match pipeline_call w p (Many ss 16) with
  | Raise e => (Raise e, after_call m p (Many ss 16) 1 [])
  | Ok raw =>
      match batch_loop (combine ss raw) with
      | Raise e => (Raise e, after_call m p (Many ss 16) 2 [])
      | Ok results =>
          (Ok results,
           after_call m p (Many ss 16) 2
             [Log DEBUG
                (MsgBatchPrediction (length ss)
                   ((perf_counter_at w (S (clock_reads m))
                     - perf_counter_at w (clock_reads m)) * 1000)%Q)])
      end
  end.
Proof.
  intro H. unfold predict_batch, bind at 1. rewrite (get_pipeline_set m p H).
  unfold call, after_call. unfold_m. simpl.
  destruct (pipeline_call w p (Many ss 16)) as [raw|e]; simpl.
  2:{ rewrite app_nil_r. reflexivity. }
  destruct (batch_loop (combine ss raw)) as [results|e]; simpl.
  2:{ rewrite app_nil_r. reflexivity. }
  reflexivity.
Qed.

Lemma inferences_app (t1 t2 : list event) :
  inferences (t1 ++ t2) = inferences t1 ++ inferences t2.
Proof. unfold inferences. apply flat_map_app. Qed.

Lemma inferences_after_call (m : Machine) (p : Pipeline) (inp : pipe_input)
      (n : nat) (logs : list event) :
  inferences logs = [] ->
  inferences (trace (after_call m p inp n logs)) = inferences (trace m) ++ [inp].
Proof.
  intro H. unfold after_call; simpl. rewrite !inferences_app, H. simpl.
  rewrite app_nil_r. reflexivity.
Qed.

Lemma inferences_logged (m : Machine) (lvl : level) (msg : log_msg) :
  inferences (trace (logged m (Log lvl msg))) = inferences (trace m).
Proof.
  unfold logged; simpl. rewrite inferences_app. simpl. apply app_nil_r.
Qed.

(* ------------------------------------------------------------------------- *)
(** ** Running the handlers                                                   *)
(* ------------------------------------------------------------------------- *)

(** The response to [POST /predict] in terms of what [predict_single] did. *)
Lemma predict_respond (w : World) (req : PredictRequest) (m : Machine) :
  respond PredictBody (predict w req) m =
  match predict_single w (sentence req) m with
  | (Ok r, m') =>
      if score_in_range (pred_score r)
      then (mkResponse 200 (PredictBody (mkPredictResponse (pred_label r) (pred_score r))), m')
      else (internal_server_error,
            logged m' (Log ERROR (MsgUnhandled (mkExn ValidationError "score"))))
  | (Raise e, m') =>
      if isinstance_RuntimeError e
      then (mkResponse 503 (Detail (exn_msg e)), m')
      else (mkResponse 500 (Detail "Prediction failed."),
            logged m' (Log ERROR (MsgPredictionError (sentence req) e)))
  end.
Proof.
  unfold respond, predict, PredictResponse_new, generic_exception_handler.
  unfold_m.
  destruct (predict_single w (sentence req) m) as [[r|e] m'].
  - destruct (score_in_range (pred_score r)); reflexivity.
  - destruct (isinstance_RuntimeError e); reflexivity.
Qed.

(** The response to [POST /predict/batch] in terms of what [predict_batch]
    did. *)
Lemma predict_batch_respond (w : World) (req : BatchPredictRequest) (m : Machine) :
  respond BatchBody (predict_batch_endpoint w req) m =
  match predict_batch w (sentences req) m with
  | (Ok rs, m') =>
      match items_of rs with
      | Ok items =>
          (mkResponse 200 (BatchBody (mkBatchPredictResponse items (length items))), m')
      | Raise e =>
          match exn_cls e with
          | HTTPException code => (mkResponse code (Detail (exn_msg e)), m')
          | _ => (internal_server_error, logged m' (Log ERROR (MsgUnhandled e)))
          end
      end
  | (Raise e, m') =>
      if isinstance_RuntimeError e
      then (mkResponse 503 (Detail (exn_msg e)), m')
      else (mkResponse 500 (Detail "Batch prediction failed."),
            logged m' (Log ERROR (MsgBatchPredictionError e)))
  end.
Proof.
  unfold respond, predict_batch_endpoint, generic_exception_handler.
  unfold_m.
  destruct (predict_batch w (sentences req) m) as [[rs|e] m'].
  - destruct (items_of rs) as [items|e]; [reflexivity|].
    destruct (exn_cls e); reflexivity.
  - destruct (isinstance_RuntimeError e); reflexivity.
Qed.

(** A response model refuses only with a [ValidationError]. *)
Lemma items_of_raise (rs : list BatchPrediction) (e : exn) :
  items_of rs = Raise e -> e = mkExn ValidationError "score".
Proof.
  revert e. induction rs as [|r rest IH]; simpl; intros e H; [discriminate|].
  unfold BatchPredictItem_new in H.
  destruct (score_in_range (bp_score r)).
  - destruct (items_of rest) as [its|e']; [discriminate|].
    injection H as <-. apply IH. reflexivity.
  - injection H as <-. reflexivity.
Qed.

(** The items built from a list of results: one per result, same sentence,
    label and score, every score within the schema's range. *)
Lemma items_of_ok (rs : list BatchPrediction) (items : list BatchPredictItem) :
  items_of rs = Ok items <->
  Forall (fun r => score_in_range (bp_score r) = true) rs
  /\ items = map (fun r => mkBatchPredictItem (bp_sentence r) (bp_label r) (bp_score r)) rs.
Proof.
  revert items. induction rs as [|r rest IH]; simpl; intro items.
  - split.
    + intro H. injection H as <-. auto.
    + intros [_ ->]. reflexivity.
  - unfold BatchPredictItem_new.
    destruct (score_in_range (bp_score r)) eqn:Hr.
    + destruct (items_of rest) as [its|e] eqn:Hrest.
      * destruct (IH its) as [IH1 _]. destruct (IH1 eq_refl) as [Hall ->].
        split.
        -- intro H. injection H as <-. auto.
        -- intros [_ ->]. reflexivity.
      * split; [discriminate|]. intros [Hall _].
        inversion Hall as [|? ? _ Hall']; subst.
        destruct (IH (map (fun r => mkBatchPredictItem (bp_sentence r) (bp_label r)
                                      (bp_score r)) rest)) as [_ IH2].
        specialize (IH2 (conj Hall' eq_refl)). discriminate.
    + split; [discriminate|]. intros [Hall _].
      inversion Hall; subst. congruence.
Qed.

(** The results of the zip loop: one per pair, in order, each carrying its
    sentence and the first top-scoring entry of its score list. *)
Lemma batch_loop_ok (pairs : list (str * list Entry)) (rs : list BatchPrediction) :
  batch_loop pairs = Ok rs <->
  Forall2 (fun pr r => exists best,
               max_by_score (snd pr) = Ok best
               /\ r = mkBatchPrediction (fst pr) (entry_label best)
                        (py_round (entry_score best) 4))
          pairs rs.
Proof.
  revert rs. induction pairs as [|[s sc] rest IH]; simpl; intro rs.
  - split.
    + intro H. injection H as <-. constructor.
    + intro H. inversion H. reflexivity.
  - destruct (max_by_score sc) as [best|e] eqn:Hmax.
    + destruct (batch_loop rest) as [rs'|e] eqn:Hrest.
      * split.
        -- intro H. injection H as <-. constructor.
           ++ exists best. simpl. auto.
           ++ apply IH. reflexivity.
        -- intro H. inversion H as [|? r0 ? rs0 (b & Hb & Hr) Hall]; subst.
           simpl in Hb. rewrite Hmax in Hb. injection Hb as <-.
           apply IH in Hall. injection Hall as <-. reflexivity.
      * split; [discriminate|].
        intro H. inversion H as [|? r0 ? rs0 _ Hall]; subst.
        apply IH in Hall. discriminate.
    + split; [discriminate|].
      intro H. inversion H as [|? r0 ? rs0 (b & Hb & _) _]; subst.
      simpl in Hb. congruence.
Qed.

Lemma batch_loop_sentences (pairs : list (str * list Entry)) (rs : list BatchPrediction) :
  batch_loop pairs = Ok rs ->
  length rs = length pairs /\ map bp_sentence rs = map fst pairs.
Proof.
  intro H. apply batch_loop_ok in H.
  induction H as [|pr r pairs' rs' (best & _ & ->) _ [IHl IHm]]; simpl; [auto|].
  split; congruence.
Qed.

(** The loop succeeds exactly when no paired score list is empty. *)
Lemma batch_loop_total (pairs : list (str * list Entry)) :
  Forall (fun pr => snd pr <> []) pairs -> exists rs, batch_loop pairs = Ok rs.
Proof.
  induction 1 as [|[s sc] rest Hne _ [rs IH]]; simpl; [eauto|].
  destruct sc as [|e sc']; [simpl in Hne; congruence|].
  simpl. rewrite IH. eauto.
Qed.

Lemma map_fst_combine {A B} (l : list A) (l' : list B) :
  map fst (combine l l') = firstn (length l') l.
Proof.
  revert l'. induction l as [|a l IH]; intros [|b l']; simpl; auto.
  - f_equal. apply IH.
Qed.

Lemma map_snd_combine {A B} (l : list A) (l' : list B) :
  map snd (combine l l') = firstn (length l) l'.
Proof.
  revert l'. induction l as [|a l IH]; intros [|b l']; simpl; auto.
  - f_equal. apply IH.
Qed.

(* ------------------------------------------------------------------------- *)
(** ** The entry [max] selects                                                *)
(* ------------------------------------------------------------------------- *)

Lemma Qgtb_true (a b : Q) : Qgtb a b = true <-> (b < a)%Q.
Proof.
  unfold Qgtb. rewrite negb_true_iff. split.
  - intro H. apply Qnot_le_lt. intro Hle.
    apply Qle_bool_iff in Hle. congruence.
  - intro H. destruct (Qle_bool a b) eqn:E; [|reflexivity].
    apply Qle_bool_iff in E. exfalso. exact (Qlt_not_le _ _ H E).
Qed.

Lemma Qgtb_false (a b : Q) : Qgtb a b = false <-> (a <= b)%Q.
Proof.
  unfold Qgtb. rewrite negb_false_iff. apply Qle_bool_iff.
Qed.

Lemma max_from_snoc (b e : Entry) (rest : list Entry) :
  max_from b (rest ++ [e]) =
  if Qgtb (entry_score e) (entry_score (max_from b rest))
  then e else max_from b rest.
Proof.
  revert b. induction rest as [|x rest IH]; intro b; simpl; [reflexivity|].
  apply IH.
Qed.

Lemma max_from_first_argmax (b : Entry) (rest : list Entry) :
  first_argmax (b :: rest) (max_from b rest).
Proof.
  induction rest as [|e rest IH] using rev_ind.
  - exists [], []. simpl. repeat split; intros e [].
  - rewrite max_from_snoc.
    destruct IH as (before & after & Hsplit & Hlt & Hle).
    destruct (Qgtb (entry_score e) (entry_score (max_from b rest))) eqn:Hcmp.
    + apply Qgtb_true in Hcmp.
      exists (b :: rest), []. repeat split.
      * rewrite Hsplit. intros x Hin.
        apply in_app_or in Hin as [Hin | [<- | Hin]].
        -- eapply Qlt_trans; [apply Hlt; exact Hin | exact Hcmp].
        -- exact Hcmp.
        -- eapply Qle_lt_trans; [apply Hle; exact Hin | exact Hcmp].
      * intros x [].
    + apply Qgtb_false in Hcmp.
      exists before, (after ++ [e]). repeat split.
      * change (b :: rest ++ [e]) with ((b :: rest) ++ [e]).
        rewrite Hsplit, <- app_assoc. reflexivity.
      * exact Hlt.
      * intros x Hin. apply in_app_or in Hin as [Hin | [<- | []]].
        -- apply Hle; exact Hin.
        -- exact Hcmp.
Qed.

Lemma max_by_score_first_argmax (l : list Entry) :
  l <> [] -> exists best, max_by_score l = Ok best /\ first_argmax l best.
Proof.
  destruct l as [|b rest]; [congruence|]. intros _.
  exists (max_from b rest). split; [reflexivity | apply max_from_first_argmax].
Qed.

Lemma max_by_score_ok (l : list Entry) (best : Entry) :
  max_by_score l = Ok best -> first_argmax l best.
Proof.
  destruct l as [|b rest]; simpl; [discriminate|].
  intro H. injection H as <-. apply max_from_first_argmax.
Qed.

(** The first argmax is unique: [max] has one possible answer. *)
Lemma first_argmax_unique (l : list Entry) (x y : Entry) :
  first_argmax l x -> first_argmax l y -> x = y.
Proof.
  intros (bx & ax & Hx & Hltx & Hlex) (by_ & ay & Hy & Hlty & Hley).
  subst l. revert by_ Hy Hlty.
  induction bx as [|h bx IH]; intros [|h' by_] Hy Hlty; simpl in *.
  - congruence.
  - injection Hy as <- Hrest.
    assert (In y ax) as Hin by (rewrite Hrest; apply in_elt).
    specialize (Hlex y Hin). specialize (Hlty x (or_introl eq_refl)).
    exfalso. exact (Qlt_not_le _ _ Hlty Hlex).
  - injection Hy as -> Hrest.
    assert (In x ay) as Hin by (rewrite <- Hrest; apply in_elt).
    specialize (Hley x Hin). specialize (Hltx y (or_introl eq_refl)).
    exfalso. exact (Qlt_not_le _ _ Hltx Hley).
  - injection Hy as <- Hrest.
    apply (IH (fun e H => Hltx e (or_intror H)) by_ Hrest
              (fun e H => Hlty e (or_intror H))).
Qed.

(* ------------------------------------------------------------------------- *)
(** ** Pipeline calls made by one request                                     *)
(* ------------------------------------------------------------------------- *)

(** On a loaded model [POST /predict] calls the pipeline exactly once, on the
    request's sentence, whatever the provider answers. *)
Lemma predict_calls_once (w : World) (req : PredictRequest) (m : Machine) (p : Pipeline) :
  _pipeline (globals m) = Some p ->
  inferences (trace (snd (respond PredictBody (predict w req) m)))
  = inferences (trace m) ++ [Single (sentence req)].
Proof.
  intro H. rewrite predict_respond, (predict_single_set w _ m p H).
  destruct (pipeline_call w p (Single (sentence req))) as [raw|e].
  - destruct (item0 raw) as [sc|e].
    + destruct (max_by_score sc) as [best|e].
      * destruct (score_in_range _); simpl snd;
          rewrite ?inferences_logged; apply inferences_after_call; reflexivity.
      * destruct (isinstance_RuntimeError e); simpl snd;
          rewrite ?inferences_logged; apply inferences_after_call; reflexivity.
    + destruct (isinstance_RuntimeError e); simpl snd;
        rewrite ?inferences_logged; apply inferences_after_call; reflexivity.
  - destruct (isinstance_RuntimeError e); simpl snd;
      rewrite ?inferences_logged; apply inferences_after_call; reflexivity.
Qed.

(** Likewise [POST /predict/batch]: one call, on the whole list, with the
    batch size hint 16. *)
Lemma predict_batch_calls_once (w : World) (req : BatchPredictRequest) (m : Machine)
      (p : Pipeline) :
  _pipeline (globals m) = Some p ->
  inferences (trace (snd (respond BatchBody (predict_batch_endpoint w req) m)))
  = inferences (trace m) ++ [Many (sentences req) 16].
Proof.
  intro H. rewrite predict_batch_respond, (predict_batch_set w _ m p H).
  destruct (pipeline_call w p (Many (sentences req) 16)) as [raw|e].
  - destruct (batch_loop (combine (sentences req) raw)) as [rs|e].
    + destruct (items_of rs) as [items|e] eqn:Hitems.
      * simpl snd. apply inferences_after_call; reflexivity.
      * apply items_of_raise in Hitems. subst e. cbn [exn_cls snd].
        rewrite inferences_logged. apply inferences_after_call; reflexivity.
    + destruct (isinstance_RuntimeError e); simpl snd;
        rewrite ?inferences_logged; apply inferences_after_call; reflexivity.
  - destruct (isinstance_RuntimeError e); simpl snd;
      rewrite ?inferences_logged; apply inferences_after_call; reflexivity.
Qed.

(* ------------------------------------------------------------------------- *)
(** ** Rounding                                                               *)
(* ------------------------------------------------------------------------- *)

(** The integer [py_round] picks is within half a unit of the scaled value. *)
Lemma py_round_choice (n d : Z) :
  (0 < d)%Z ->
  let fl := (n / d)%Z in
  let r := (n mod d)%Z in
  let k := match (2 * r ?= d)%Z with
           | Lt => fl
           | Gt => (fl + 1)%Z
           | Eq => if Z.even fl then fl else (fl + 1)%Z
           end in
  (2 * (k * d - n) <= d)%Z /\ (2 * (n - k * d) <= d)%Z.
Proof.
  intros Hd fl r k.
  pose proof (Z.div_mod n d ltac:(lia)) as Hdm.
  pose proof (Z.mod_pos_bound n d Hd) as Hr.
  fold fl in Hdm. fold r in Hdm, Hr.
  unfold k. destruct (Z.compare_spec (2 * r) d) as [Heq|Hlt|Hgt].
  - destruct (Z.even fl); nia.
  - nia.
  - nia.
Qed.

(** [round(x, ndigits)] is within half a unit of the last kept digit of [x]. *)
Lemma py_round_close (x : Q) (ndigits : nat) :
  (py_round x ndigits - x <= 1 # (2 * pow10 ndigits))%Q
  /\ (x - py_round x ndigits <= 1 # (2 * pow10 ndigits))%Q.
Proof.
  destruct x as [a d]. unfold py_round. cbn [Qnum Qden].
  destruct (py_round_choice (a * Zpos (pow10 ndigits)) (Zpos d) ltac:(lia)) as [H1 H2].
  cbv zeta in H1, H2.
  set (k := match (2 * ((a * Zpos (pow10 ndigits)) mod Zpos d)
                   ?= Zpos d)%Z with
            | Eq => if Z.even (a * Zpos (pow10 ndigits) / Zpos d)
                    then (a * Zpos (pow10 ndigits) / Zpos d)%Z
                    else (a * Zpos (pow10 ndigits) / Zpos d + 1)%Z
            | Lt => (a * Zpos (pow10 ndigits) / Zpos d)%Z
            | Gt => (a * Zpos (pow10 ndigits) / Zpos d + 1)%Z
            end) in *.
  unfold Qle, Qminus, Qplus, Qopp. cbn [Qnum Qden].
  rewrite !Pos2Z.inj_mul. change (Zpos 2) with 2%Z.
  set (S := Zpos (pow10 ndigits)) in *. set (D := Zpos d) in *.
  assert (0 < S)%Z by (unfold S; lia). assert (0 < D)%Z by (unfold D; lia).
  split; nia.
Qed.

(** Rounding keeps a value of [0, 1] within [0, 1]. *)
Lemma py_round_unit_interval (x : Q) (ndigits : nat) :
  (0 <= x)%Q -> (x <= 1)%Q ->
  (0 <= py_round x ndigits)%Q /\ (py_round x ndigits <= 1)%Q.
Proof.
  destruct x as [a d]. unfold Qle, py_round. cbn [Qnum Qden].
  intros H0 H1. rewrite Z.mul_1_r in H0. rewrite Z.mul_1_l, Z.mul_1_r in H1.
  rewrite !Z.mul_1_r, Z.mul_1_l. simpl (0 * _)%Z.
  set (S := Zpos (pow10 ndigits)) in *. set (D := Zpos d) in *.
  assert (0 < S)%Z by (unfold S; lia). assert (0 < D)%Z by (unfold D; lia).
  pose proof (Z.div_mod (a * S) D ltac:(lia)) as Hdm.
  pose proof (Z.mod_pos_bound (a * S) D ltac:(lia)) as Hr.
  assert (0 <= a * S / D)%Z as Hfl0 by (apply Z.div_pos; nia).
  assert (a * S / D <= S)%Z as HflS.
  { apply Z.div_le_upper_bound; nia. }
  destruct (Z.compare_spec (2 * ((a * S) mod D)) D) as [Heq|Hlt|Hgt].
  - destruct (Z.even (a * S / D)); split; try lia.
    assert (a * S / D <> S)%Z by nia. lia.
  - split; lia.
  - split; try lia. assert (a * S / D <> S)%Z by nia. lia.
Qed.

(** What [round(x, ndigits)] returns, without reference to how it is
    computed: a multiple [k / 10^ndigits] of the last kept digit, within half
    a unit of [x], with [k] even when [x] lies exactly half way. *)
Lemma py_round_spec (x : Q) (ndigits : nat) :
  exists k : Z,
    py_round x ndigits = k # pow10 ndigits
    /\ (py_round x ndigits - x <= 1 # (2 * pow10 ndigits))%Q
    /\ (x - py_round x ndigits <= 1 # (2 * pow10 ndigits))%Q
    /\ ((py_round x ndigits - x == 1 # (2 * pow10 ndigits))%Q
        \/ (x - py_round x ndigits == 1 # (2 * pow10 ndigits))%Q ->
        Z.even k = true).
Proof.
  destruct (py_round_close x ndigits) as [Hup Hdown].
  destruct x as [a d]. unfold py_round in *. cbn [Qnum Qden] in *.
  set (S := Zpos (pow10 ndigits)) in *. set (D := Zpos d) in *.
  assert (0 < S)%Z as HS by (unfold S; lia).
  assert (0 < D)%Z as HD by (unfold D; lia).
  pose proof (Z.div_mod (a * S) D ltac:(lia)) as Hdm.
  pose proof (Z.mod_pos_bound (a * S) D HD) as Hr.
  set (fl := (a * S / D)%Z) in *. set (r := ((a * S) mod D)%Z) in *.
  eexists. split; [reflexivity|]. split; [exact Hup|]. split; [exact Hdown|].
  unfold Qeq, Qminus, Qplus, Qopp. cbn [Qnum Qden].
  rewrite !Pos2Z.inj_mul. change (Zpos 2) with 2%Z.
  fold S D.
  destruct (Z.compare_spec (2 * r) D) as [Heq|Hlt|Hgt].
  - intros _. destruct (Z.even fl) eqn:He; [exact He|].
    rewrite Z.even_add, He. reflexivity.
  - intros [H|H]; exfalso; nia.
  - intros [H|H]; exfalso; nia.
Qed.

(* ------------------------------------------------------------------------- *)
(** ** Claims about the lifecycle manager and the single-sentence route       *)
(* ------------------------------------------------------------------------- *)

(** C2.  While the pipeline singleton is unset, [predict_single] and
    [predict_batch] raise the not-initialised [RuntimeError] and leave the
    machine as it was (so no pipeline call is made), and both POST routes
    answer every body that passes validation with status 503. *)
Theorem C2_not_initialised (w : World) (m : Machine) :
  _pipeline (globals m) = None ->
  (forall s, predict_single w s m = (Raise not_initialised, m))
  /\ (forall ss, predict_batch w ss m = (Raise not_initialised, m))
  /\ (forall b req, PredictRequest_validate b = Valid req ->
        POST_predict w b m
        = (mkResponse 503 (Detail (exn_msg not_initialised)), m))
  /\ (forall b req, BatchPredictRequest_validate b = Valid req ->
        POST_predict_batch w b m
        = (mkResponse 503 (Detail (exn_msg not_initialised)), m)).
Proof.
  intro H. repeat split.
  - intro s. apply predict_single_unset, H.
  - intro ss. apply predict_batch_unset, H.
  - intros b req Hv. unfold POST_predict. rewrite Hv, predict_respond.
    rewrite (predict_single_unset w _ m H). reflexivity.
  - intros b req Hv. unfold POST_predict_batch. rewrite Hv, predict_batch_respond.
    rewrite (predict_batch_unset w _ m H). reflexivity.
Qed.

Lemma C2_not_initialised_witness :
  status_code (fst (POST_predict w_ok body_one m_boot)) = 503
  /\ status_code (fst (POST_predict_batch w_ok body_two m_boot)) = 503
  /\ inferences (trace (snd (POST_predict w_ok body_one m_boot))) = [].
Proof.
  destruct (C2_not_initialised w_ok m_boot eq_refl) as (_ & _ & H1 & H2).
  rewrite (H1 body_one (mkPredictRequest denies) eq_refl).
  rewrite (H2 body_two (mkBatchPredictRequest [denies; history]) eq_refl).
  repeat split.
Defined.

(** C3.  A body passes [PredictRequest] exactly when its [sentence] field is
    a string of 1 to 2048 characters that is not empty once stripped; the
    accepted request carries the stripped text, which is what a loaded model
    is called on; any other body is answered 422 with the machine untouched,
    so without any pipeline call. *)
Theorem C3_single_validation (w : World) (b : json) (m : Machine) :
  ((exists req, PredictRequest_validate b = Valid req) <->
   (exists s, field "sentence" b = Some (JString s)
              /\ 1 <= length s <= 2048 /\ strip s <> []))
  /\ (forall s, field "sentence" b = Some (JString s) ->
                1 <= length s <= 2048 -> strip s <> [] ->
        PredictRequest_validate b = Valid (mkPredictRequest (strip s))
        /\ POST_predict w b m
           = respond PredictBody (predict w (mkPredictRequest (strip s))) m
        /\ (forall p, _pipeline (globals m) = Some p ->
              inferences (trace (snd (POST_predict w b m)))
              = inferences (trace m) ++ [Single (strip s)]))
  /\ ((~ exists s, field "sentence" b = Some (JString s)
                   /\ 1 <= length s <= 2048 /\ strip s <> []) ->
      exists v, POST_predict w b m = (mkResponse 422 (ValidationDetail v), m)).
Proof.
  assert (forall s, field "sentence" b = Some (JString s) ->
                    1 <= length s <= 2048 -> strip s <> [] ->
                    PredictRequest_validate b = Valid (mkPredictRequest (strip s)))
    as Hvalid.
  { intros s Hf Hl Hne. apply PredictRequest_validate_valid. exists s. auto. }
  split; [|split].
  - split.
    + intros [req Hreq]. apply PredictRequest_validate_valid in Hreq
        as (s & Hf & Hl & Hne & _). exists s. auto.
    + intros (s & Hf & Hl & Hne). eexists. apply (Hvalid s); assumption.
  - intros s Hf Hl Hne. specialize (Hvalid s Hf Hl Hne).
    unfold POST_predict. rewrite Hvalid. repeat split.
    intros p Hp. apply (predict_calls_once w (mkPredictRequest (strip s)) m p Hp).
  - intro Hnot. unfold POST_predict.
    destruct (PredictRequest_validate b) as [req|v] eqn:Hv.
    + exfalso. apply Hnot. apply PredictRequest_validate_valid in Hv
        as (s & Hf & Hl & Hne & _). exists s. auto.
    + exists v. reflexivity.
Qed.

Lemma C3_single_validation_witness :
  PredictRequest_validate body_one = Valid (mkPredictRequest denies)
  /\ inferences (trace (snd (POST_predict w_ok body_one m_ready))) = [Single denies]
  /\ exists v, POST_predict w_ok body_long_single m_ready
               = (mkResponse 422 (ValidationDetail v), m_ready).
Proof.
  destruct (C3_single_validation w_ok body_one m_ready) as (_ & Hok & _).
  destruct (Hok (of_string "  The patient denies chest pain. ") eq_refl)
    as (Hv & _ & Hinf).
  - simpl; lia.
  - discriminate.
  - destruct (C3_single_validation w_ok body_long_single m_ready) as (_ & _ & Hbad).
    split; [exact Hv | split; [exact (Hinf cpu_pipeline eq_refl) | apply Hbad]].
    intros (s & Hf & Hl & _). injection Hf as <-.
    vm_compute in Hl. lia.
Defined.

(** C5.  On a loaded model, when the provider answers a sentence with a
    non-empty score list, [predict_single] returns the label of the first
    entry carrying the greatest score, and as score that entry's score rounded
    to four decimal digits: a multiple [k / 10000] within 0.00005 of the
    entry's score, with [k] even when the entry's score lies exactly half way
    between two multiples. *)
Theorem C5_first_argmax (w : World) (m : Machine) (p : Pipeline) (s : str)
        (all_scores : list Entry) (others : list (list Entry)) :
  _pipeline (globals m) = Some p ->
  pipeline_call w p (Single s) = Ok (all_scores :: others) ->
  all_scores <> [] ->
  exists best r k,
    first_argmax all_scores best
    /\ fst (predict_single w s m) = Ok r
    /\ pred_label r = entry_label best
    /\ pred_score r = k # 10000
    /\ (pred_score r - entry_score best <= 1 # 20000)%Q
    /\ (entry_score best - pred_score r <= 1 # 20000)%Q
    /\ ((pred_score r - entry_score best == 1 # 20000)%Q
        \/ (entry_score best - pred_score r == 1 # 20000)%Q ->
        Z.even k = true).
Proof.
  intros Hp Hcall Hne.
  destruct (max_by_score_first_argmax all_scores Hne) as (best & Hmax & Harg).
  destruct (py_round_spec (entry_score best) 4) as (k & Hk & Hup & Hdown & Htie).
  change (pow10 4) with 10000%positive in Hk.
  change (2 * pow10 4)%positive with 20000%positive in Hup, Hdown, Htie.
  exists best, (mkPrediction (entry_label best) (py_round (entry_score best) 4)), k.
  cbn [pred_label pred_score].
  split; [exact Harg|]. split.
  { rewrite (predict_single_set w s m p Hp), Hcall. simpl item0. cbv iota.
    rewrite Hmax. reflexivity. }
  split; [reflexivity|]. split; [exact Hk|].
  split; [exact Hup|]. split; [exact Hdown | exact Htie].
Qed.

Lemma C5_first_argmax_witness :
  exists best r k,
    first_argmax [mkEntry "CONDITIONAL" (1 # 5); mkEntry "PRESENT" (2 # 5);
                  mkEntry "ABSENT" (2 # 5)] best
    /\ fst (predict_single w_tie denies m_ready) = Ok r
    /\ pred_label r = entry_label best
    /\ pred_score r = k # 10000
    /\ (pred_score r - entry_score best <= 1 # 20000)%Q
    /\ (entry_score best - pred_score r <= 1 # 20000)%Q
    /\ ((pred_score r - entry_score best == 1 # 20000)%Q
        \/ (entry_score best - pred_score r == 1 # 20000)%Q ->
        Z.even k = true).
Proof.
  apply (C5_first_argmax w_tie m_ready cpu_pipeline denies _ []).
  - reflexivity.
  - reflexivity.
  - discriminate.
Defined.

(* ------------------------------------------------------------------------- *)
(** ** Loading the model and reporting readiness                              *)
(* ------------------------------------------------------------------------- *)

Lemma loads_app (t1 t2 : list event) : loads (t1 ++ t2) = loads t1 ++ loads t2.
Proof. unfold loads. apply filter_app. Qed.

Lemma load_model_loaded (w : World) (m : Machine) (p : Pipeline) :
  _pipeline (globals m) = Some p ->
  load_model w m = (Ok tt, logged m (Log INFO MsgAlreadyLoaded)).
Proof.
  intro H. unfold load_model. unfold_m. rewrite H. reflexivity.
Qed.

Lemma load_model_fresh (w : World) (m : Machine) (tok : Tokenizer)
      (mdl : SequenceClassifier) :
  _pipeline (globals m) = None ->
  tokenizer_from_pretrained w MODEL_NAME = Ok tok ->
  model_from_pretrained w MODEL_NAME = Ok mdl ->
  load_model w m =
  (Ok tt,
   mkMachine
     (mkGlobals
        (Some (mkPipeline "text-classification" mdl tok (chosen_device w) None true 512))
        (Some (load_latency w m)))
     (2 + clock_reads m)
     (trace m ++
        [Log INFO (MsgLoading MODEL_NAME);
         Log INFO (MsgRunningOn (if cuda_is_available w then "GPU (CUDA)" else "CPU"));
         LoadTokenizer MODEL_NAME; LoadModel MODEL_NAME;
         Log INFO (MsgLoaded (load_latency w m))])).
Proof.
  intros H Htok Hmdl. unfold load_model, chosen_device, load_latency. unfold_m.
  rewrite H. cbn [globals clock_reads trace]. rewrite Htok, Hmdl.
  cbn [globals clock_reads trace _pipeline _load_time_ms].
  destruct (cuda_is_available w); cbn [Z.eqb];
    repeat (rewrite <- app_assoc; cbn [app]); reflexivity.
Qed.

(** A failed download leaves the singletons unset. *)
Lemma load_model_failed (w : World) (m : Machine) :
  _pipeline (globals m) = None ->
  (forall tok mdl, ~ (tokenizer_from_pretrained w MODEL_NAME = Ok tok
                      /\ model_from_pretrained w MODEL_NAME = Ok mdl)) ->
  exists e, fst (load_model w m) = Raise e
            /\ globals (snd (load_model w m)) = globals m.
Proof.
  intros H Hfail. unfold load_model. unfold_m. rewrite H.
  cbn [globals clock_reads trace].
  destruct (tokenizer_from_pretrained w MODEL_NAME) as [tok|e] eqn:Htok.
  - destruct (model_from_pretrained w MODEL_NAME) as [mdl|e] eqn:Hmdl.
    + exfalso. apply (Hfail tok mdl). auto.
    + exists e. split; reflexivity.
  - exists e. split; reflexivity.
Qed.

(** C7.  [load_model] on a loaded model only logs that it skips the reload:
    the cached pipeline, the recorded latency and the clock are untouched and
    nothing is downloaded.  On an unloaded model whose downloads succeed it
    caches a pipeline on device 0 when CUDA is available and -1 (CPU)
    otherwise, records the elapsed time in milliseconds, and a second call
    changes none of this. *)
Theorem C7_load_model_idempotent (w : World) (m : Machine) :
  (forall p, _pipeline (globals m) = Some p ->
     load_model w m = (Ok tt, logged m (Log INFO MsgAlreadyLoaded))
     /\ globals (snd (load_model w m)) = globals m
     /\ clock_reads (snd (load_model w m)) = clock_reads m
     /\ loads (trace (snd (load_model w m))) = loads (trace m))
  /\ (_pipeline (globals m) = None ->
      forall tok mdl,
        tokenizer_from_pretrained w MODEL_NAME = Ok tok ->
        model_from_pretrained w MODEL_NAME = Ok mdl ->
        let m1 := snd (load_model w m) in
        let m2 := snd (load_model w m1) in
        fst (load_model w m) = Ok tt
        /\ _pipeline (globals m1)
           = Some (mkPipeline "text-classification" mdl tok
                     (if cuda_is_available w then 0%Z else (-1)%Z) None true 512)
        /\ _load_time_ms (globals m1) = Some (load_latency w m)
        /\ loads (trace m1)
           = loads (trace m) ++ [LoadTokenizer MODEL_NAME; LoadModel MODEL_NAME]
        /\ fst (load_model w m1) = Ok tt
        /\ globals m2 = globals m1
        /\ clock_reads m2 = clock_reads m1
        /\ loads (trace m2) = loads (trace m1)).
Proof.
  assert (forall m0 p, _pipeline (globals m0) = Some p ->
            load_model w m0 = (Ok tt, logged m0 (Log INFO MsgAlreadyLoaded))
            /\ globals (snd (load_model w m0)) = globals m0
            /\ clock_reads (snd (load_model w m0)) = clock_reads m0
            /\ loads (trace (snd (load_model w m0))) = loads (trace m0)) as Hskip.
  { intros m0 p Hp. rewrite (load_model_loaded w m0 p Hp). repeat split.
    simpl. rewrite loads_app. simpl. apply app_nil_r. }
  split; [apply Hskip|].
  intros Hnone tok mdl Htok Hmdl m1 m2.
  pose proof (load_model_fresh w m tok mdl Hnone Htok Hmdl) as Hrun.
  assert (_pipeline (globals m1)
          = Some (mkPipeline "text-classification" mdl tok (chosen_device w) None true 512))
    as Hp1 by (unfold m1; rewrite Hrun; reflexivity).
  destruct (Hskip m1 _ Hp1) as (Hrun2 & Hg & Hc & Hl).
  repeat split.
  - rewrite Hrun. reflexivity.
  - exact Hp1.
  - unfold m1. rewrite Hrun. reflexivity.
  - unfold m1. rewrite Hrun. simpl. rewrite loads_app. reflexivity.
  - rewrite Hrun2. reflexivity.
  - exact Hg.
  - exact Hc.
  - exact Hl.
Qed.

Lemma C7_load_model_idempotent_witness :
  (load_model w_ok m_ready = (Ok tt, logged m_ready (Log INFO MsgAlreadyLoaded))
   /\ globals (snd (load_model w_ok m_ready)) = globals m_ready)
  /\ (_pipeline (globals (snd (load_model w_gpu m_boot)))
      = Some (mkPipeline "text-classification" (ClassifierOf MODEL_NAME)
                (TokenizerOf MODEL_NAME) 0 None true 512)
      /\ _load_time_ms (globals (snd (load_model w_gpu m_boot)))
         = Some (load_latency w_gpu m_boot)
      /\ globals (snd (load_model w_gpu (snd (load_model w_gpu m_boot))))
         = globals (snd (load_model w_gpu m_boot))).
Proof.
  split.
  - destruct (C7_load_model_idempotent w_ok m_ready) as [Hskip _].
    destruct (Hskip cpu_pipeline eq_refl) as (H1 & H2 & _). split; assumption.
  - destruct (C7_load_model_idempotent w_gpu m_boot) as [_ Hfresh].
    destruct (Hfresh eq_refl (TokenizerOf MODEL_NAME) (ClassifierOf MODEL_NAME)
                eq_refl eq_refl) as (_ & Hp & Ht & _ & _ & Hg & _).
    repeat split; assumption.
Defined.

(** C8.  [GET /health] answers 200 with status "ok", the model name,
    [model_loaded = true] and the device name when the pipeline singleton is
    set, and 503 when it is not; either way the machine is left exactly as it
    was: nothing is loaded, nothing is called, no clock is read. *)
Theorem C8_health (w : World) (m : Machine) :
  GET_health w m =
  (match _pipeline (globals m) with
   | Some _ =>
       mkResponse 200
         (HealthBody (mkHealthResponse "ok" MODEL_NAME true
                        (if cuda_is_available w then "GPU (CUDA)" else "CPU")))
   | None =>
       mkResponse 503 (Detail "Model is not yet loaded. Service is not ready.")
   end, m).
Proof.
  unfold GET_health, respond, health, get_model_info. unfold_m.
  destruct (_pipeline (globals m)); reflexivity.
Qed.

(* ------------------------------------------------------------------------- *)
(** ** Batch validation                                                       *)
(* ------------------------------------------------------------------------- *)

Lemma map_JString_inj (a b : list str) : map JString a = map JString b -> a = b.
Proof.
  revert b. induction a as [|x a IH]; intros [|y b] H; simpl in H;
    try discriminate; [reflexivity|].
  injection H as -> H. f_equal. apply IH, H.
Qed.

Lemma str_items_strings (ss : list str) : str_items (map JString ss) = Valid ss.
Proof.
  induction ss as [|s ss IH]; simpl; [reflexivity|]. rewrite IH. reflexivity.
Qed.

Lemma str_items_valid (items : list json) (ss : list str) :
  str_items items = Valid ss <-> items = map JString ss.
Proof.
  split.
  - revert ss. induction items as [|v rest IH]; intro ss; simpl.
    + intro H. injection H as <-. reflexivity.
    + destruct v; simpl; try discriminate.
      destruct (str_items rest) as [ss'|e]; [|discriminate].
      intro H. injection H as <-. simpl. f_equal. apply IH. reflexivity.
  - intros ->. apply str_items_strings.
Qed.

Lemma validate_sentences_valid (v cleaned : list str) :
  validate_sentences v = Valid cleaned <->
  Forall (fun s => strip s <> []) v /\ cleaned = map strip v.
Proof.
  revert cleaned. induction v as [|s rest IH]; intro cleaned; simpl.
  - split.
    + intro H. injection H as <-. auto.
    + intros [_ ->]. reflexivity.
  - destruct (truthy (strip s)) eqn:Ht; simpl.
    + apply truthy_true_iff in Ht.
      destruct (validate_sentences rest) as [cl|e] eqn:Hrest.
      * destruct (IH cl) as [IH1 _]. destruct (IH1 eq_refl) as [Hall ->].
        split.
        -- intro H. injection H as <-. auto.
        -- intros [_ ->]. reflexivity.
      * split; [discriminate|]. intros [Hall _].
        inversion Hall as [|? ? _ Hall']; subst.
        destruct (IH (map strip rest)) as [_ IH2].
        specialize (IH2 (conj Hall' eq_refl)). discriminate.
    + split; [discriminate|]. intros [Hall _].
      inversion Hall as [|? ? Hs _]; subst.
      apply truthy_true_iff in Hs. congruence.
Qed.

(** What a body must look like for [BatchPredictRequest] to accept it: a list
    of 1 to 64 strings, none blank once stripped, of any length each.  The
    accepted request holds the stripped strings in the order received. *)
Lemma BatchPredictRequest_validate_valid (b : json) (req : BatchPredictRequest) :
  BatchPredictRequest_validate b = Valid req <->
  exists ss, field "sentences" b = Some (JArray (map JString ss))
             /\ 1 <= length ss <= 64
             /\ Forall (fun s => strip s <> []) ss
             /\ req = mkBatchPredictRequest (map strip ss).
Proof.
  unfold BatchPredictRequest_validate.
  destruct (field "sentences" b) as [v|].
  2:{ split; [discriminate | intros (ss & H & _); discriminate]. }
  unfold list_str_field.
  destruct v as [| | | |items|];
    try (split; [discriminate | intros (ss & H & _); discriminate]).
  destruct (Nat.ltb_spec (length items) 1) as [Hlo|Hlo].
  { split; [discriminate|]. intros (ss & H & Hl & _). injection H as ->.
    rewrite length_map in Hlo. lia. }
  destruct (Nat.ltb_spec 64 (length items)) as [Hhi|Hhi].
  { split; [discriminate|]. intros (ss & H & Hl & _). injection H as ->.
    rewrite length_map in Hhi. lia. }
  destruct (str_items items) as [ss|e] eqn:Hitems.
  - apply str_items_valid in Hitems. subst items. rewrite length_map in Hlo, Hhi.
    destruct (validate_sentences ss) as [cl|e] eqn:Hval.
    + apply validate_sentences_valid in Hval as [Hall ->]. split.
      * intro H. injection H as <-. exists ss. auto.
      * intros (ss0 & H & _ & _ & ->). injection H as H.
        apply map_JString_inj in H as <-.
        reflexivity.
    + split; [discriminate|]. intros (ss0 & H & _ & Hall & _). injection H as H.
      apply map_JString_inj in H as <-.
      assert (validate_sentences ss = Valid (map strip ss)) as Hv
          by (apply validate_sentences_valid; auto).
      congruence.
  - split; [discriminate|]. intros (ss0 & H & _). injection H as ->.
    assert (str_items (map JString ss0) = Valid ss0) as Hv
        by (apply str_items_valid; reflexivity).
    congruence.
Qed.

(** All or nothing: a refused batch is answered 422 and the machine is left
    as it was; no element is classified. *)
Lemma batch_refused_untouched (w : World) (b : json) (m : Machine) (v : violation) :
  BatchPredictRequest_validate b = Invalid v ->
  POST_predict_batch w b m = (mkResponse 422 (ValidationDetail v), m).
Proof.
  intro H. unfold POST_predict_batch. rewrite H. reflexivity.
Qed.

(** One blank element anywhere refuses the whole batch. *)
Lemma batch_blank_element_refused (pre post : list str) (s : str) :
  strip s = [] ->
  exists v, BatchPredictRequest_validate
              (JObject [("sentences", JArray (map JString (pre ++ s :: post)))])
            = Invalid v.
Proof.
  intro Hs.
  destruct (BatchPredictRequest_validate _) as [req|v] eqn:Hv; [|eauto].
  apply BatchPredictRequest_validate_valid in Hv as (ss & Hf & _ & Hall & _).
  simpl in Hf. injection Hf as Hf.
  apply map_JString_inj in Hf as <-.
  rewrite Forall_forall in Hall. exfalso. apply (Hall s); [apply in_elt | exact Hs].
Qed.

(** C4.  The batch schema puts no length bound on an element: a batch whose
    only sentence has 2049 characters is accepted and classified, while the
    same sentence sent to the single-sentence route is refused. *)
Theorem C4_overlong_batch_element_accepted :
  length long_sentence = 2049
  /\ PredictRequest_validate body_long_single = Invalid StringTooLong
  /\ BatchPredictRequest_validate body_long_batch
     = Valid (mkBatchPredictRequest [long_sentence])
  /\ status_code (fst (POST_predict_batch w_ok body_long_batch m_ready)) = 200
  /\ inferences (trace (snd (POST_predict_batch w_ok body_long_batch m_ready)))
     = [Many [long_sentence] 16].
Proof.
  repeat split; vm_compute; reflexivity.
Qed.

(* ------------------------------------------------------------------------- *)
(** ** Provider failures                                                      *)
(* ------------------------------------------------------------------------- *)

(** What the client sees when the provider raises [e] on a loaded model: the
    class of [e] decides.  One pipeline call was made (see
    [predict_calls_once]). *)
Lemma provider_failure_single (w : World) (m : Machine) (p : Pipeline)
      (req : PredictRequest) (e : exn) :
  _pipeline (globals m) = Some p ->
  pipeline_call w p (Single (sentence req)) = Raise e ->
  fst (respond PredictBody (predict w req) m)
  = if isinstance_RuntimeError e
    then mkResponse 503 (Detail (exn_msg e))
    else mkResponse 500 (Detail "Prediction failed.").
Proof.
  intros Hp Hcall. rewrite predict_respond, (predict_single_set w _ m p Hp), Hcall.
  destruct (isinstance_RuntimeError e); reflexivity.
Qed.

Lemma provider_failure_batch (w : World) (m : Machine) (p : Pipeline)
      (req : BatchPredictRequest) (e : exn) :
  _pipeline (globals m) = Some p ->
  pipeline_call w p (Many (sentences req) 16) = Raise e ->
  fst (respond BatchBody (predict_batch_endpoint w req) m)
  = if isinstance_RuntimeError e
    then mkResponse 503 (Detail (exn_msg e))
    else mkResponse 500 (Detail "Batch prediction failed.").
Proof.
  intros Hp Hcall.
  rewrite predict_batch_respond, (predict_batch_set w _ m p Hp), Hcall.
  destruct (isinstance_RuntimeError e); reflexivity.
Qed.

(** C9.  On a loaded model, a provider failure of class [RuntimeError] is
    answered with status 503 and the provider's own message as detail, on both
    POST routes; a failure of another class is answered 500 with a fixed
    detail.  Either way the pipeline was called once. *)
Theorem C9_runtime_error_echoed :
  _pipeline (globals m_ready) = Some cpu_pipeline
  /\ pipeline_call w_runtime_error cpu_pipeline (Single denies) = Raise cuda_oom
  /\ fst (POST_predict w_runtime_error body_one m_ready)
     = mkResponse 503 (Detail "CUDA out of memory. Tried to allocate 20.00 MiB")
  /\ fst (POST_predict_batch w_runtime_error body_two m_ready)
     = mkResponse 503 (Detail "CUDA out of memory. Tried to allocate 20.00 MiB")
  /\ inferences (trace (snd (POST_predict w_runtime_error body_one m_ready)))
     = [Single denies]
  /\ fst (POST_predict w_key_error body_one m_ready)
     = mkResponse 500 (Detail "Prediction failed.").
Proof.
  repeat split; vm_compute; reflexivity.
Qed.

(* ------------------------------------------------------------------------- *)
(** ** The single-sentence response                                           *)
(* ------------------------------------------------------------------------- *)

Lemma first_argmax_In (l : list Entry) (best : Entry) :
  first_argmax l best -> In best l.
Proof.
  intros (before & after & -> & _). apply in_elt.
Qed.

Lemma score_in_range_true (q : Q) :
  score_in_range q = true <-> (0 <= q)%Q /\ (q <= 1)%Q.
Proof.
  unfold score_in_range. rewrite andb_true_iff, !Qle_bool_iff. reflexivity.
Qed.

(** C6.  On a loaded model whose provider names its classes LABEL_0,
    LABEL_1, LABEL_2, a valid sentence is answered 200 with the label
    "LABEL_1": [predict_single] copies the label of the selected entry and
    [PredictResponse] accepts any string, so a label outside PRESENT, ABSENT,
    CONDITIONAL reaches the client.  The score of that response is within
    [0, 1]. *)
Theorem C6_unchecked_label_reaches_client :
  PredictRequest_validate body_one = Valid (mkPredictRequest denies)
  /\ _pipeline (globals m_ready) = Some cpu_pipeline
  /\ pipeline_call w_other_labels cpu_pipeline (Single denies)
     = Ok [[mkEntry "LABEL_0" (2 # 10); mkEntry "LABEL_1" (7 # 10);
            mkEntry "LABEL_2" (1 # 10)]]
  /\ fst (POST_predict w_other_labels body_one m_ready)
     = mkResponse 200 (PredictBody (mkPredictResponse "LABEL_1" (7000 # 10000)))
  /\ ~ In "LABEL_1" LABELS
  /\ score_in_range (7000 # 10000) = true.
Proof.
  do 4 (split; [reflexivity|]). split; [|reflexivity].
  intros [H | [H | [H | []]]]; discriminate.
Qed.

(** Every 200 response of [POST /predict] carries a score between 0 and 1, and
    its label is the label of the first top-scoring entry of the provider's
    answer; hence it is one of PRESENT, ABSENT, CONDITIONAL whenever the
    provider's entries only carry those labels. *)
Theorem single_response_score_range_and_label (w : World) (b : json) (m : Machine) :
  status_code (fst (POST_predict w b m)) = 200 ->
  exists r,
    content (fst (POST_predict w b m)) = PredictBody r
    /\ (0 <= score r)%Q /\ (score r <= 1)%Q
    /\ exists req p all_scores others best,
         PredictRequest_validate b = Valid req
         /\ _pipeline (globals m) = Some p
         /\ pipeline_call w p (Single (sentence req)) = Ok (all_scores :: others)
         /\ first_argmax all_scores best
         /\ label r = entry_label best
         /\ ((forall e, In e all_scores -> In (entry_label e) LABELS) ->
             In (label r) LABELS).
Proof.
  unfold POST_predict.
  destruct (PredictRequest_validate b) as [req|v]; [|simpl; discriminate].
  rewrite predict_respond.
  destruct (_pipeline (globals m)) as [p|] eqn:Hp.
  2:{ rewrite (predict_single_unset w _ m Hp). simpl. discriminate. }
  rewrite (predict_single_set w _ m p Hp).
  destruct (pipeline_call w p (Single (sentence req))) as [raw|e] eqn:Hcall.
  2:{ destruct (isinstance_RuntimeError e); simpl; discriminate. }
  destruct raw as [|all_scores others]; simpl item0; cbv iota.
  { simpl. discriminate. }
  destruct (max_by_score all_scores) as [best|e] eqn:Hmax.
  2:{ destruct (isinstance_RuntimeError e); simpl; discriminate. }
  cbn [pred_score pred_label].
  destruct (score_in_range (py_round (entry_score best) 4)) eqn:Hrange.
  2:{ simpl. discriminate. }
  intros _. apply score_in_range_true in Hrange as [Hlo Hhi].
  apply max_by_score_ok in Hmax.
  eexists. cbn [fst content]. split; [reflexivity|].
  cbn [score label]. repeat split; try assumption.
  exists req, p, all_scores, others, best. repeat split; try assumption; try reflexivity.
  intro Hall. apply Hall, first_argmax_In, Hmax.
Qed.

Lemma single_response_score_range_and_label_witness :
  exists r,
    content (fst (POST_predict w_ok body_one m_ready)) = PredictBody r
    /\ (0 <= score r)%Q /\ (score r <= 1)%Q
    /\ exists req p all_scores others best,
         PredictRequest_validate body_one = Valid req
         /\ _pipeline (globals m_ready) = Some p
         /\ pipeline_call w_ok p (Single (sentence req)) = Ok (all_scores :: others)
         /\ first_argmax all_scores best
         /\ label r = entry_label best
         /\ ((forall e, In e all_scores -> In (entry_label e) LABELS) ->
             In (label r) LABELS).
Proof.
  apply (single_response_score_range_and_label w_ok body_one m_ready). reflexivity.
Defined.

(* ------------------------------------------------------------------------- *)
(** ** The batch response                                                     *)
(* ------------------------------------------------------------------------- *)

Lemma batch_loop_results (pairs : list (str * list Entry)) (rs : list BatchPrediction) :
  batch_loop pairs = Ok rs ->
  Forall2 (fun pr r => result_of (fst pr) (snd pr) r) pairs rs.
Proof.
  intro H. apply batch_loop_ok in H.
  induction H as [|pr r pairs' rs' (best & Hmax & ->) _ IH]; constructor; [|exact IH].
  split; [reflexivity|]. exists best. apply max_by_score_ok in Hmax. auto.
Qed.

Lemma batch_loop_in_range (pairs : list (str * list Entry)) :
  Forall (fun pr => exists best,
              max_by_score (snd pr) = Ok best
              /\ score_in_range (py_round (entry_score best) 4) = true) pairs ->
  exists rs, batch_loop pairs = Ok rs
             /\ Forall (fun r => score_in_range (bp_score r) = true) rs.
Proof.
  induction 1 as [|[s sc] rest (best & Hmax & Hr) _ (rs & IH & Hall)]; simpl.
  - exists []. auto.
  - simpl in Hmax. rewrite Hmax, IH. eexists. split; [reflexivity|].
    constructor; [exact Hr | exact Hall].
Qed.

Lemma Forall2_combine_snd {A B C} (R : A -> B -> C -> Prop)
      (l : list A) (l' : list B) (rs : list C) :
  length l' = length l ->
  Forall2 (fun pr r => R (fst pr) (snd pr) r) (combine l l') rs ->
  Forall2 (fun b r => exists a, R a b r) l' rs.
Proof.
  revert l' rs. induction l as [|a l IH]; intros [|b l'] rs Hlen H;
    simpl in *; try discriminate.
  - inversion H. constructor.
  - inversion H as [|? r ? rs' Hr Hrest]; subst. constructor.
    + exists a. exact Hr.
    + apply IH; [lia | exact Hrest].
Qed.

Lemma Forall2_map_right {A B C} (P : A -> C -> Prop) (f : B -> C)
      (l : list A) (rs : list B) :
  Forall2 (fun a r => P a (f r)) l rs -> Forall2 P l (map f rs).
Proof.
  induction 1; simpl; constructor; assumption.
Qed.

(** C10.  On a loaded model, when the provider answers a batch with [raw] and
    none of the score lists paired with a sentence is empty, [predict_batch]
    returns normally with min(#sentences, #raw) results, the i-th built from
    the i-th sentence and the i-th score list; sentences beyond the provider's
    answer are left out, and the endpoint's count is that minimum.  With one
    score list per sentence every sentence has its result. *)
Theorem C10_results_follow_zip (w : World) (m : Machine) (p : Pipeline)
        (ss : list str) (raw : list (list Entry)) :
  _pipeline (globals m) = Some p ->
  pipeline_call w p (Many ss 16) = Ok raw ->
  Forall (fun sc => sc <> []) (firstn (length ss) raw) ->
  exists rs,
    fst (predict_batch w ss m) = Ok rs
    /\ length rs = Nat.min (length ss) (length raw)
    /\ map bp_sentence rs = firstn (length raw) ss
    /\ Forall2 (fun pr r => result_of (fst pr) (snd pr) r) (combine ss raw) rs
    /\ (length raw = length ss -> map bp_sentence rs = ss)
    /\ (Forall (fun r => score_in_range (bp_score r) = true) rs ->
        exists items,
          fst (respond BatchBody
                 (predict_batch_endpoint w (mkBatchPredictRequest ss)) m)
          = mkResponse 200
              (BatchBody (mkBatchPredictResponse items
                            (Nat.min (length ss) (length raw))))
          /\ length items = Nat.min (length ss) (length raw)).
Proof.
  intros Hp Hcall Hne.
  assert (Forall (fun pr : str * list Entry => snd pr <> []) (combine ss raw)) as Hpairs.
  { rewrite Forall_forall in *. intros [s sc] Hin. apply Hne.
    rewrite <- map_snd_combine. apply in_map_iff. exists (s, sc). auto. }
  destruct (batch_loop_total _ Hpairs) as [rs Hloop].
  destruct (batch_loop_sentences _ _ Hloop) as [Hlen Hsent].
  rewrite length_combine in Hlen. rewrite map_fst_combine in Hsent.
  exists rs. repeat split.
  - rewrite (predict_batch_set w ss m p Hp), Hcall, Hloop. reflexivity.
  - exact Hlen.
  - exact Hsent.
  - apply batch_loop_results, Hloop.
  - intro Heq. rewrite Hsent, Heq. apply firstn_all.
  - intro Hrange.
    exists (map (fun r => mkBatchPredictItem (bp_sentence r) (bp_label r) (bp_score r)) rs).
    assert (items_of rs
            = Ok (map (fun r => mkBatchPredictItem (bp_sentence r) (bp_label r)
                                  (bp_score r)) rs)) as Hitems
        by (apply items_of_ok; auto).
    rewrite predict_batch_respond. cbn [sentences].
    rewrite (predict_batch_set w ss m p Hp), Hcall, Hloop, Hitems.
    rewrite length_map, Hlen. split; reflexivity.
Qed.

Lemma C10_results_follow_zip_witness :
  exists rs,
    fst (predict_batch w_short [denies; history] m_ready) = Ok rs
    /\ length rs = 1
    /\ map bp_sentence rs = [denies]
    /\ exists items,
         fst (respond BatchBody
                (predict_batch_endpoint w_short
                   (mkBatchPredictRequest [denies; history])) m_ready)
         = mkResponse 200 (BatchBody (mkBatchPredictResponse items 1)).
Proof.
  destruct (C10_results_follow_zip w_short m_ready cpu_pipeline [denies; history]
              [three_scores (1 # 10) (8 # 10) (1 # 10)] eq_refl eq_refl)
    as (rs & Hrun & Hlen & Hsent & _ & _ & Hresp).
  - repeat constructor; discriminate.
  - exists rs. repeat split; try assumption.
    destruct Hresp as (items & Hitems & _).
    + assert (Ok rs = fst (predict_batch w_short [denies; history] m_ready)) as Hrs
          by (symmetry; exact Hrun).
      vm_compute in Hrs. injection Hrs as ->.
      repeat constructor.
    + exists items. exact Hitems.
Defined.


(** For a body that passes batch validation, on a loaded model whose provider
    answers with exactly one score list per sentence: a 200 response lists one
    item per validated sentence in the order received, the i-th item carrying
    the i-th sentence with the label and rounded score of the first
    top-scoring entry of the i-th score list, and [count] is the number of
    items, which is the number of validated sentences.  The response is a 200
    as soon as every score list has a top entry whose rounded score lies
    between 0 and 1. *)
Theorem batch_order_and_count_with_full_answer (w : World) (b : json) (m : Machine)
        (req : BatchPredictRequest) (p : Pipeline) (raw : list (list Entry)) :
  BatchPredictRequest_validate b = Valid req ->
  _pipeline (globals m) = Some p ->
  pipeline_call w p (Many (sentences req) 16) = Ok raw ->
  length raw = length (sentences req) ->
  (status_code (fst (POST_predict_batch w b m)) = 200 ->
   exists items,
     content (fst (POST_predict_batch w b m))
     = BatchBody (mkBatchPredictResponse items (length items))
     /\ length items = length (sentences req)
     /\ map item_sentence items = sentences req
     /\ Forall2 (fun sc it =>
                   exists best, first_argmax sc best
                                /\ item_label it = entry_label best
                                /\ item_score it = py_round (entry_score best) 4)
                raw items)
  /\ (Forall (fun sc => exists best,
                  max_by_score sc = Ok best
                  /\ score_in_range (py_round (entry_score best) 4) = true) raw ->
      status_code (fst (POST_predict_batch w b m)) = 200).
Proof.
  intros Hv Hp Hcall Hlen.
  unfold POST_predict_batch. rewrite Hv, predict_batch_respond.
  rewrite (predict_batch_set w _ m p Hp), Hcall.
  split.
  - destruct (batch_loop (combine (sentences req) raw)) as [rs|e] eqn:Hloop.
    2:{ destruct (isinstance_RuntimeError e); simpl; discriminate. }
    destruct (items_of rs) as [items|e] eqn:Hitems.
    2:{ apply items_of_raise in Hitems. subst e. simpl. discriminate. }
    intros _. exists items. cbn [fst content].
    apply items_of_ok in Hitems as [_ ->].
    destruct (batch_loop_sentences _ _ Hloop) as [Hl Hs].
    rewrite length_combine, Hlen, Nat.min_id in Hl.
    rewrite map_fst_combine, Hlen, firstn_all in Hs.
    rewrite length_map, map_map. cbn [item_sentence].
    repeat split; try assumption.
    apply Forall2_map_right. cbn [item_label item_score].
    apply batch_loop_results in Hloop.
    apply (Forall2_combine_snd (fun s sc r => result_of s sc r)) in Hloop;
      [|exact Hlen].
    eapply Forall2_impl; [|exact Hloop].
    intros sc r (s & _ & best & Hb). exists best. exact Hb.
  - intro Hall.
    assert (Forall (fun pr : str * list Entry =>
                      exists best, max_by_score (snd pr) = Ok best
                                   /\ score_in_range (py_round (entry_score best) 4) = true)
                   (combine (sentences req) raw)) as Hpairs.
    { rewrite Forall_forall in *. intros [s sc] Hin. apply Hall.
      eapply in_combine_r, Hin. }
    destruct (batch_loop_in_range _ Hpairs) as (rs & Hloop & Hrange).
    rewrite Hloop.
    assert (items_of rs
            = Ok (map (fun r => mkBatchPredictItem (bp_sentence r) (bp_label r)
                                  (bp_score r)) rs)) as ->
        by (apply items_of_ok; auto).
    reflexivity.
Qed.

Lemma batch_order_and_count_with_full_answer_witness :
  exists items,
    content (fst (POST_predict_batch w_ok body_two m_ready))
    = BatchBody (mkBatchPredictResponse items (length items))
    /\ length items = 2
    /\ map item_sentence items = [denies; history].
Proof.
  destruct (batch_order_and_count_with_full_answer w_ok body_two m_ready
              (mkBatchPredictRequest [denies; history]) cpu_pipeline
              [three_scores (1 # 10) (8 # 10) (1 # 10);
               three_scores (1 # 10) (8 # 10) (1 # 10)]
              eq_refl eq_refl eq_refl eq_refl) as [Hshape _].
  destruct (Hshape eq_refl) as (items & Hc & Hl & Hs & _).
  exists items. repeat split; assumption.
Defined.

(* ------------------------------------------------------------------------- *)
(** ** The scenarios of the test suite                                        *)
(* ------------------------------------------------------------------------- *)

Example empty_sentence_422 :
  status_of (POST_predict w_ok (JObject [("sentence", JString [])]) m_ready) = 422.
Proof. reflexivity. Qed.

Example whitespace_only_sentence_422 :
  status_of (POST_predict w_ok (JObject [("sentence", JString (of_string "   "))])
               m_ready) = 422.
Proof. reflexivity. Qed.

Example missing_sentence_field_422 :
  status_of (POST_predict w_ok (JObject []) m_ready) = 422.
Proof. reflexivity. Qed.

Example sentence_too_long_422 :
  status_of (POST_predict w_ok
               (JObject [("sentence",
                          JString (concat (repeat (of_string "word ") 600)))])
               m_ready) = 422.
Proof. vm_compute. reflexivity. Qed.

Example non_string_sentence_422 :
  status_of (POST_predict w_ok (JObject [("sentence", JNumber 12345)]) m_ready) = 422.
Proof. reflexivity. Qed.

Example batch_empty_list_422 :
  status_of (POST_predict_batch w_ok (JObject [("sentences", JArray [])]) m_ready) = 422.
Proof. reflexivity. Qed.

Example batch_with_blank_sentence_422 :
  status_of (POST_predict_batch w_ok
               (JObject [("sentences",
                          JArray [JString (of_string "valid sentence"); JString []])])
               m_ready) = 422.
Proof. reflexivity. Qed.

Example batch_of_65_is_422 :
  status_of (POST_predict_batch w_ok
               (JObject [("sentences", JArray (repeat (JString denies) 65))])
               m_ready) = 422.
Proof. vm_compute. reflexivity. Qed.

Example batch_of_64_is_200 :
  status_of (POST_predict_batch w_ok
               (JObject [("sentences", JArray (repeat (JString denies) 64))])
               m_ready) = 200.
Proof. vm_compute. reflexivity. Qed.

Example tie_goes_to_the_first :
  fst (predict_single w_tie denies m_ready)
  = Ok (mkPrediction "PRESENT" (4000 # 10000)).
Proof. reflexivity. Qed.

Example no_break_space_is_stripped :
  strip [160%N; 104%N; 105%N; 8195%N] = of_string "hi".
Proof. reflexivity. Qed.

Example round_half_to_even :
  py_round (98425 # 100000) 4 = (9842 # 10000)
  /\ py_round (98435 # 100000) 4 = (9844 # 10000)
  /\ py_round (98426 # 100000) 4 = (9843 # 10000).
Proof. repeat split. Qed.

Example health_before_and_after_startup :
  status_of (GET_health w_ok m_boot) = 503
  /\ status_of (GET_health w_ok m_ready) = 200.
Proof. split; reflexivity. Qed.

(* ------------------------------------------------------------------------- *)
(** ** What stripping does to a sentence                                      *)
(* ------------------------------------------------------------------------- *)

Lemma lstrip_split (s : str) :
  exists pre, s = pre ++ lstrip s /\ forallb isspace pre = true.
Proof.
  induction s as [|c rest (pre & Hs & Hpre)]; simpl.
  - exists []. auto.
  - destruct (isspace c) eqn:Hc.
    + exists (c :: pre). simpl. rewrite Hc, Hpre. split; [f_equal; exact Hs | reflexivity].
    + exists []. auto.
Qed.

Lemma lstrip_head (s : str) (c : codepoint) (t : str) :
  lstrip s = c :: t -> isspace c = false.
Proof.
  induction s as [|a rest IH]; simpl; [discriminate|].
  destruct (isspace a) eqn:Ha; [exact IH|].
  intro H. injection H as <- _. exact Ha.
Qed.

Lemma lstrip_idem (s : str) : lstrip (lstrip s) = lstrip s.
Proof.
  destruct (lstrip s) as [|c t] eqn:H; [reflexivity|].
  simpl. rewrite (lstrip_head s c t H). reflexivity.
Qed.

Lemma lstrip_fixed_head (c : codepoint) (t : str) :
  lstrip (c :: t) = c :: t -> isspace c = false.
Proof. apply lstrip_head. Qed.

Lemma rstrip_split (s : str) :
  exists post, s = rstrip s ++ post /\ forallb isspace post = true.
Proof.
  unfold rstrip. destruct (lstrip_split (rev s)) as (pre & Hs & Hpre).
  exists (rev pre). split.
  - rewrite <- rev_app_distr, <- Hs, rev_involutive. reflexivity.
  - rewrite forallb_forall in *. intros x Hx. apply Hpre, in_rev, Hx.
Qed.

Lemma strip_trimmed (s : str) : trimmed (strip s).
Proof.
  unfold trimmed, strip. split.
  - destruct (rstrip_split (lstrip s)) as (post & Hs & _).
    destruct (rstrip (lstrip s)) as [|c r] eqn:Hr; [reflexivity|].
    simpl in Hs. simpl. rewrite (lstrip_head s c (r ++ post) Hs). reflexivity.
  - unfold rstrip. rewrite rev_involutive. apply lstrip_idem.
Qed.

Lemma trimmed_strip (u : str) : trimmed u -> strip u = u.
Proof.
  intros [Hl Hr]. unfold strip, rstrip. rewrite Hl, Hr. apply rev_involutive.
Qed.

Lemma strip_idem (s : str) : strip (strip s) = strip s.
Proof. apply trimmed_strip, strip_trimmed. Qed.

(** Stripping removes whitespace at the two ends and nothing else. *)
Lemma strip_split (s : str) :
  exists pre post,
    s = pre ++ strip s ++ post
    /\ forallb isspace pre = true /\ forallb isspace post = true.
Proof.
  destruct (lstrip_split s) as (pre & Hs & Hpre).
  destruct (rstrip_split (lstrip s)) as (post & Ht & Hpost).
  exists pre, post. unfold strip. rewrite <- Ht. auto.
Qed.

Lemma trimmed_ends (u : str) :
  trimmed u ->
  (forall c t, u = c :: t -> isspace c = false)
  /\ (forall c front, u = front ++ [c] -> isspace c = false).
Proof.
  intros [Hl Hr]. split.
  - intros c t ->. apply (lstrip_fixed_head c t Hl).
  - intros c front ->. rewrite rev_app_distr in Hr. simpl in Hr.
    apply (lstrip_fixed_head c (rev front) Hr).
Qed.

(** X1.  The sentence an accepted single request carries is the received
    string with whitespace removed at its two ends and nothing else changed:
    it is not empty, neither its first nor its last character is whitespace,
    and it has at most 2048 characters. *)
Theorem accepted_sentence_is_the_trimmed_input (b : json) (req : PredictRequest) :
  PredictRequest_validate b = Valid req ->
  exists s pre post,
    field "sentence" b = Some (JString s)
    /\ s = pre ++ sentence req ++ post
    /\ forallb isspace pre = true /\ forallb isspace post = true
    /\ sentence req <> []
    /\ (forall c t, sentence req = c :: t -> isspace c = false)
    /\ (forall c front, sentence req = front ++ [c] -> isspace c = false)
    /\ 1 <= length (sentence req) <= 2048.
Proof.
  intro H. apply PredictRequest_validate_valid in H as (s & Hf & Hl & Hne & ->).
  destruct (strip_split s) as (pre & post & Hs & Hpre & Hpost).
  destruct (trimmed_ends (strip s) (strip_trimmed s)) as [Hhd Hlast].
  exists s, pre, post. cbn [sentence].
  repeat split; try assumption.
  - destruct (strip s); [congruence | simpl; lia].
  - pose proof (strip_length s). lia.
Qed.

Lemma accepted_sentence_is_the_trimmed_input_witness :
  exists s pre post,
    field "sentence" body_one = Some (JString s)
    /\ s = pre ++ denies ++ post
    /\ forallb isspace pre = true /\ forallb isspace post = true
    /\ denies <> []
    /\ (forall c t, denies = c :: t -> isspace c = false)
    /\ (forall c front, denies = front ++ [c] -> isspace c = false)
    /\ 1 <= length denies <= 2048.
Proof.
  exact (accepted_sentence_is_the_trimmed_input body_one (mkPredictRequest denies) eq_refl).
Defined.

(** X2.  Validation is idempotent on what it accepts: sending the accepted
    sentence again yields the very same request. *)
Theorem revalidating_an_accepted_sentence (b : json) (req : PredictRequest) :
  PredictRequest_validate b = Valid req ->
  PredictRequest_validate (single_body (sentence req)) = Valid req.
Proof.
  intro H. apply PredictRequest_validate_valid in H as (s & Hf & Hl & Hne & ->).
  apply PredictRequest_validate_valid. exists (strip s). cbn [sentence].
  rewrite strip_idem. repeat split; try assumption; try reflexivity.
  - destruct (strip s); [congruence | simpl; lia].
  - pose proof (strip_length s). lia.
Qed.

Lemma revalidating_an_accepted_sentence_witness :
  PredictRequest_validate (single_body denies) = Valid (mkPredictRequest denies).
Proof.
  exact (revalidating_an_accepted_sentence body_one (mkPredictRequest denies) eq_refl).
Defined.

(** X3.  An accepted batch holds between 1 and 64 sentences, each of them not
    empty and free of whitespace at both ends, and sending these sentences
    again yields the very same request. *)
Theorem accepted_batch_shape (b : json) (req : BatchPredictRequest) :
  BatchPredictRequest_validate b = Valid req ->
  1 <= length (sentences req) <= 64
  /\ Forall (fun s => s <> [] /\ trimmed s) (sentences req)
  /\ BatchPredictRequest_validate (batch_body (sentences req)) = Valid req.
Proof.
  intro H. apply BatchPredictRequest_validate_valid in H as (ss & Hf & Hl & Hall & ->).
  cbn [sentences]. rewrite length_map.
  assert (Forall (fun s => s <> [] /\ trimmed s) (map strip ss)) as Hshape.
  { rewrite Forall_forall in *. intros u Hu. apply in_map_iff in Hu as (s & <- & Hs).
    split; [apply Hall, Hs | apply strip_trimmed]. }
  repeat split; try lia; try assumption.
  apply BatchPredictRequest_validate_valid. exists (map strip ss).
  rewrite length_map. repeat split; try lia.
  - rewrite Forall_forall in *. intros u Hu. destruct (Hshape u Hu) as [Hne Ht].
    rewrite (trimmed_strip u Ht). exact Hne.
  - f_equal. rewrite map_map. apply map_ext. intro s. symmetry. apply strip_idem.
Qed.

Lemma accepted_batch_shape_witness :
  1 <= length [denies; history] <= 64
  /\ Forall (fun s => s <> [] /\ trimmed s) [denies; history]
  /\ BatchPredictRequest_validate (batch_body [denies; history])
     = Valid (mkBatchPredictRequest [denies; history]).
Proof.
  exact (accepted_batch_shape body_two (mkBatchPredictRequest [denies; history]) eq_refl).
Defined.

(** X4.  A sentence made of whitespace only (of any length, any of the
    Unicode whitespace characters) is answered 422 by the single route, and a
    batch containing one is answered 422 as a whole, whatever the state of the
    model and without touching the machine. *)
Theorem whitespace_only_is_refused (w : World) (m : Machine) (s : str)
        (before after : list str) :
  forallb isspace s = true ->
  (exists v, POST_predict w (single_body s) m
             = (mkResponse 422 (ValidationDetail v), m))
  /\ (exists v, POST_predict_batch w (batch_body (before ++ s :: after)) m
                = (mkResponse 422 (ValidationDetail v), m)).
Proof.
  intro Hs. pose proof (strip_all_space s Hs) as Hblank. split.
  - unfold POST_predict.
    destruct (PredictRequest_validate (single_body s)) as [req|v] eqn:Hv; [|eauto].
    apply PredictRequest_validate_valid in Hv as (s0 & Hf & _ & Hne & _).
    simpl in Hf. injection Hf as <-. congruence.
  - unfold POST_predict_batch.
    destruct (BatchPredictRequest_validate (batch_body (before ++ s :: after)))
      as [req|v] eqn:Hv; [|eauto].
    apply BatchPredictRequest_validate_valid in Hv as (ss & Hf & _ & Hall & _).
    simpl in Hf. injection Hf as Hf. apply map_JString_inj in Hf as <-.
    rewrite Forall_forall in Hall. exfalso. apply (Hall s); [apply in_elt | exact Hblank].
Qed.

Lemma whitespace_only_is_refused_witness :
  (exists v, POST_predict w_ok (single_body [9%N; 32%N; 160%N; 12288%N]) m_boot
             = (mkResponse 422 (ValidationDetail v), m_boot))
  /\ (exists v, POST_predict_batch w_ok
                  (batch_body ([denies] ++ [9%N; 32%N; 160%N; 12288%N] :: [history]))
                  m_boot
                = (mkResponse 422 (ValidationDetail v), m_boot)).
Proof.
  apply (whitespace_only_is_refused w_ok m_boot [9%N; 32%N; 160%N; 12288%N]
           [denies] [history]).
  reflexivity.
Defined.

(* ------------------------------------------------------------------------- *)
(** ** Startup, failed loads and the model information                        *)
(* ------------------------------------------------------------------------- *)

Lemma posts_while_unloaded (w : World) (m : Machine) :
  _pipeline (globals m) = None ->
  (forall b req, PredictRequest_validate b = Valid req ->
     POST_predict w b m = (mkResponse 503 (Detail (exn_msg not_initialised)), m))
  /\ (forall b req, BatchPredictRequest_validate b = Valid req ->
        POST_predict_batch w b m
        = (mkResponse 503 (Detail (exn_msg not_initialised)), m)).
Proof.
  intro H. split; intros b req Hv.
  - unfold POST_predict. rewrite Hv, predict_respond.
    rewrite (predict_single_unset w _ m H). reflexivity.
  - unfold POST_predict_batch. rewrite Hv, predict_batch_respond.
    rewrite (predict_batch_unset w _ m H). reflexivity.
Qed.

Lemma health_run (w : World) (m : Machine) :
  GET_health w m =
  (match _pipeline (globals m) with
   | Some _ =>
       mkResponse 200
         (HealthBody (mkHealthResponse "ok" MODEL_NAME true
                        (if cuda_is_available w then "GPU (CUDA)" else "CPU")))
   | None =>
       mkResponse 503 (Detail "Model is not yet loaded. Service is not ready.")
   end, m).
Proof.
  unfold GET_health, respond, health, get_model_info. unfold_m.
  destruct (_pipeline (globals m)); reflexivity.
Qed.

Lemma lifespan_run (w : World) (m : Machine) :
  lifespan w m =
  match load_model w (logged m (Log INFO MsgStartup)) with
  | (Ok _, m1) => (Ok tt, logged m1 (Log INFO MsgReady))
  | (Raise e, m1) => (Raise e, m1)
  end.
Proof.
  unfold lifespan, bind at 1 2. unfold log at 1, emit at 1.
  change (mkMachine (globals m) (clock_reads m) (trace m ++ [Log INFO MsgStartup]))
    with (logged m (Log INFO MsgStartup)).
  destruct (load_model w (logged m (Log INFO MsgStartup))) as [[u|e] m1]; reflexivity.
Qed.

(** [load_model] on an unloaded model, when a download fails with [e]: which
    download it was decides what was attempted. *)
Lemma load_model_download_fails (w : World) (m : Machine) (e : exn) :
  _pipeline (globals m) = None ->
  (tokenizer_from_pretrained w MODEL_NAME = Raise e
   \/ exists tok, tokenizer_from_pretrained w MODEL_NAME = Ok tok
                  /\ model_from_pretrained w MODEL_NAME = Raise e) ->
  fst (load_model w m) = Raise e
  /\ globals (snd (load_model w m)) = globals m
  /\ exists evs, trace (snd (load_model w m)) = trace m ++ evs
                 /\ loads evs
                    = match tokenizer_from_pretrained w MODEL_NAME with
                      | Raise _ => [LoadTokenizer MODEL_NAME]
                      | Ok _ => [LoadTokenizer MODEL_NAME; LoadModel MODEL_NAME]
                      end.
Proof.
  intros H Hfail. unfold load_model. unfold_m. rewrite H.
  cbn [globals clock_reads trace].
  destruct Hfail as [Htok | (tok & Htok & Hmdl)].
  - rewrite Htok. cbn [fst snd globals trace]. repeat split.
    eexists. split; [repeat (rewrite <- app_assoc; cbn [app]); reflexivity|].
    reflexivity.
  - rewrite Htok. cbn [globals clock_reads trace]. rewrite Hmdl.
    cbn [fst snd globals trace]. repeat split.
    eexists. split; [repeat (rewrite <- app_assoc; cbn [app]); reflexivity|].
    reflexivity.
Qed.

(** X5.  When a download fails during startup on an unloaded model, the
    failure propagates out of [load_model] and [lifespan], the singletons stay
    unset, the model is not downloaded after a failed tokenizer download, and
    the service then answers 503 to [GET /health] and to every valid POST. *)
Theorem failed_startup_leaves_service_unavailable (w : World) (m : Machine) (e : exn) :
  _pipeline (globals m) = None ->
  (tokenizer_from_pretrained w MODEL_NAME = Raise e
   \/ exists tok, tokenizer_from_pretrained w MODEL_NAME = Ok tok
                  /\ model_from_pretrained w MODEL_NAME = Raise e) ->
  let m' := snd (lifespan w m) in
  fst (load_model w m) = Raise e
  /\ fst (lifespan w m) = Raise e
  /\ globals m' = globals m
  /\ (tokenizer_from_pretrained w MODEL_NAME = Raise e ->
      loads (trace m') = loads (trace m) ++ [LoadTokenizer MODEL_NAME])
  /\ status_of (GET_health w m') = 503
  /\ (forall b req, PredictRequest_validate b = Valid req ->
        status_of (POST_predict w b m') = 503)
  /\ (forall b req, BatchPredictRequest_validate b = Valid req ->
        status_of (POST_predict_batch w b m') = 503).
Proof.
  intros Hnone Hfail m'.
  destruct (load_model_download_fails w m e Hnone Hfail) as (Hraise & _ & _).
  assert (_pipeline (globals (logged m (Log INFO MsgStartup))) = None) as Hnone0
      by exact Hnone.
  destruct (load_model_download_fails w _ e Hnone0 Hfail)
    as (Hraise0 & Hglob0 & evs & Htrace0 & Hloads0).
  assert (lifespan w m = (Raise e, snd (load_model w (logged m (Log INFO MsgStartup)))))
    as Hrun.
  { rewrite lifespan_run.
    destruct (load_model w (logged m (Log INFO MsgStartup))) as [[u|e0] m1];
      simpl in Hraise0; [discriminate|]. injection Hraise0 as ->. reflexivity. }
  assert (globals m' = globals m) as Hglob by (unfold m'; rewrite Hrun; exact Hglob0).
  assert (_pipeline (globals m') = None) as Hnone' by (rewrite Hglob; exact Hnone).
  destruct (posts_while_unloaded w m' Hnone') as (H1 & H2).
  repeat split.
  - exact Hraise.
  - rewrite Hrun. reflexivity.
  - exact Hglob.
  - intro Htok. unfold m'. rewrite Hrun. cbn [snd].
    rewrite Htrace0, loads_app, Hloads0, Htok.
    cbn [logged trace]. rewrite loads_app. simpl.
    rewrite app_nil_r. reflexivity.
  - unfold status_of. rewrite health_run, Hnone'. reflexivity.
  - intros b req Hv. unfold status_of. rewrite (H1 b req Hv). reflexivity.
  - intros b req Hv. unfold status_of. rewrite (H2 b req Hv). reflexivity.
Qed.

Lemma failed_startup_leaves_service_unavailable_witness :
  fst (lifespan w_hub_down m_boot) = Raise hub_unreachable
  /\ globals (snd (lifespan w_hub_down m_boot)) = globals m_boot
  /\ status_of (GET_health w_hub_down (snd (lifespan w_hub_down m_boot))) = 503
  /\ status_of (POST_predict w_hub_down body_one (snd (lifespan w_hub_down m_boot))) = 503.
Proof.
  destruct (failed_startup_leaves_service_unavailable w_hub_down m_boot hub_unreachable
              eq_refl (or_introl eq_refl))
    as (_ & Hl & Hg & _ & Hh & Hp & _).
  split; [exact Hl | split; [exact Hg | split; [exact Hh|]]].
  exact (Hp body_one (mkPredictRequest denies) eq_refl).
Defined.

(** X6.  [lifespan] returns normally exactly when the model is loaded
    afterwards; it then logs that the API is live, and [GET /health] answers
    200 from then on. *)
Theorem startup_succeeds_iff_loaded (w : World) (m : Machine) :
  let m' := snd (lifespan w m) in
  (fst (lifespan w m) = Ok tt <-> exists p, _pipeline (globals m') = Some p)
  /\ (fst (lifespan w m) = Ok tt ->
      status_of (GET_health w m') = 200
      /\ exists evs, trace m' = trace m ++ evs /\ last evs (Log INFO MsgStartup)
                                                 = Log INFO MsgReady).
Proof.
  intro m'. unfold m'. rewrite lifespan_run.
  set (m0 := logged m (Log INFO MsgStartup)).
  assert (forall p, _pipeline (globals m0) = Some p ->
            load_model w m0 = (Ok tt, logged m0 (Log INFO MsgAlreadyLoaded))) as Hskip
      by (intros p Hp; exact (load_model_loaded w m0 p Hp)).
  destruct (_pipeline (globals m0)) as [p|] eqn:Hp0.
  - rewrite (Hskip p eq_refl). cbn [fst snd]. split.
    + split; [intros _; exists p; exact Hp0 | reflexivity].
    + intros _. split.
      * unfold status_of. rewrite health_run. cbn [logged globals snd].
        rewrite Hp0. reflexivity.
      * eexists. split.
        -- cbn [logged trace m0]. rewrite <- !app_assoc. cbn [app]. reflexivity.
        -- reflexivity.
  - destruct (tokenizer_from_pretrained w MODEL_NAME) as [tok|e] eqn:Htok.
    + destruct (model_from_pretrained w MODEL_NAME) as [mdl|e] eqn:Hmdl.
      * rewrite (load_model_fresh w m0 tok mdl Hp0 Htok Hmdl). cbn [fst snd]. split.
        -- split; [intros _; eexists; reflexivity | reflexivity].
        -- intros _. split.
           ++ unfold status_of. rewrite health_run. reflexivity.
           ++ eexists. split.
              ** cbn [logged trace m0]. rewrite <- !app_assoc. cbn [app]. reflexivity.
              ** reflexivity.
      * destruct (load_model_download_fails w m0 e Hp0
                    (or_intror (ex_intro _ tok (conj Htok Hmdl)))) as (Hr & Hg & _).
        destruct (load_model w m0) as [[u|e0] m1]; simpl in Hr; [discriminate|].
        cbn [fst snd] in *. split; [|discriminate].
        split; [discriminate|]. intros (p & Hp). rewrite Hg, Hp0 in Hp. discriminate.
    + destruct (load_model_download_fails w m0 e Hp0 (or_introl Htok)) as (Hr & Hg & _).
      destruct (load_model w m0) as [[u|e0] m1]; simpl in Hr; [discriminate|].
      cbn [fst snd] in *. split; [|discriminate].
      split; [discriminate|]. intros (p & Hp). rewrite Hg, Hp0 in Hp. discriminate.
Qed.

Lemma startup_succeeds_iff_loaded_witness :
  status_of (GET_health w_ok (snd (lifespan w_ok m_boot))) = 200
  /\ ~ (exists p, _pipeline (globals (snd (lifespan w_hub_down m_boot))) = Some p).
Proof.
  split.
  - destruct (startup_succeeds_iff_loaded w_ok m_boot) as [_ Hok].
    exact (proj1 (Hok eq_refl)).
  - destruct (startup_succeeds_iff_loaded w_hub_down m_boot) as [[_ Hiff] _].
    intro Hp. specialize (Hiff Hp). discriminate Hiff.
Defined.

(** X7.  After a fresh successful load, [get_model_info] reports the model
    as loaded, under its name, with the three labels and the device named by
    the current CUDA query, and leaves the machine as it was.  The load time
    is reported as absent exactly when the two clock readings of the load
    coincide: a latency of zero is falsy in [if _load_time_ms]. *)
Theorem model_info_after_load (w : World) (m : Machine) (tok : Tokenizer)
        (mdl : SequenceClassifier) :
  _pipeline (globals m) = None ->
  tokenizer_from_pretrained w MODEL_NAME = Ok tok ->
  model_from_pretrained w MODEL_NAME = Ok mdl ->
  let m1 := snd (load_model w m) in
  exists info,
    get_model_info w m1 = (Ok info, m1)
    /\ info_model_name info = MODEL_NAME
    /\ info_loaded info = true
    /\ info_device info = (if cuda_is_available w then "GPU (CUDA)" else "CPU")
    /\ info_labels info = ["PRESENT"; "ABSENT"; "CONDITIONAL"]
    /\ (info_load_time_ms info = None <->
        (perf_counter_at w (S (clock_reads m)) == perf_counter_at w (clock_reads m))%Q).
Proof.
  intros Hnone Htok Hmdl m1. unfold m1.
  rewrite (load_model_fresh w m tok mdl Hnone Htok Hmdl).
  unfold get_model_info, load_latency. unfold_m.
  cbn [snd fst globals _pipeline _load_time_ms].
  destruct (Qeq_bool ((perf_counter_at w (S (clock_reads m))
                       - perf_counter_at w (clock_reads m)) * 1000) 0) eqn:Hz.
  - apply Qeq_bool_iff in Hz. eexists. split; [reflexivity|].
    cbn [info_model_name info_loaded info_device info_labels info_load_time_ms].
    do 4 (split; [reflexivity|]).
    split; [intros _; lra | reflexivity].
  - eexists. split; [reflexivity|].
    cbn [info_model_name info_loaded info_device info_labels info_load_time_ms].
    do 4 (split; [reflexivity|]).
    split; [discriminate|]. intro Heq.
    assert (Qeq_bool ((perf_counter_at w (S (clock_reads m))
                       - perf_counter_at w (clock_reads m)) * 1000) 0 = true) as Ht
        by (apply Qeq_bool_iff; lra).
    congruence.
Qed.

Lemma model_info_after_load_witness :
  (exists info,
      get_model_info w_ok (snd (load_model w_ok m_boot))
      = (Ok info, snd (load_model w_ok m_boot))
      /\ info_loaded info = true
      /\ info_load_time_ms info <> None)
  /\ (exists info,
         get_model_info w_frozen_clock (snd (load_model w_frozen_clock m_boot))
         = (Ok info, snd (load_model w_frozen_clock m_boot))
         /\ info_loaded info = true
         /\ info_load_time_ms info = None).
Proof.
  split.
  - destruct (model_info_after_load w_ok m_boot (TokenizerOf MODEL_NAME)
                (ClassifierOf MODEL_NAME) eq_refl eq_refl eq_refl)
      as (info & Hrun & _ & Hl & _ & _ & Hnone).
    exists info. split; [exact Hrun | split; [exact Hl|]].
    intro H. apply Hnone in H. vm_compute in H. discriminate.
  - destruct (model_info_after_load w_frozen_clock m_boot (TokenizerOf MODEL_NAME)
                (ClassifierOf MODEL_NAME) eq_refl eq_refl eq_refl)
      as (info & Hrun & _ & Hl & _ & _ & Hnone).
    exists info. split; [exact Hrun | split; [exact Hl|]].
    apply Hnone. reflexivity.
Defined.

(* ------------------------------------------------------------------------- *)
(** ** What a request leaves behind                                           *)
(* ------------------------------------------------------------------------- *)

Lemma same_refl (m : Machine) : same_globals_more_trace m m [].
Proof. split; [reflexivity | symmetry; apply app_nil_r]. Qed.

Lemma same_after_call (m : Machine) (p : Pipeline) (inp : pipe_input) (n : nat)
      (logs : list event) :
  same_globals_more_trace m (after_call m p inp n logs) (Infer p inp :: logs).
Proof.
  split; [reflexivity|]. unfold after_call; simpl. rewrite <- app_assoc. reflexivity.
Qed.

Lemma same_logged (m m' : Machine) (evs : list event) (e : event) :
  same_globals_more_trace m m' evs ->
  same_globals_more_trace m (logged m' e) (evs ++ [e]).
Proof.
  intros [Hg Ht]. split; [exact Hg|]. unfold logged; simpl.
  rewrite Ht, app_assoc. reflexivity.
Qed.

(** The effects of the single-sentence handler, with its status. *)
Lemma predict_effects (w : World) (req : PredictRequest) (m : Machine) :
  exists evs,
    same_globals_more_trace m (snd (respond PredictBody (predict w req) m)) evs
    /\ loads evs = []
    /\ (inferences evs = [] \/ inferences evs = [Single (sentence req)])
    /\ In (status_code (fst (respond PredictBody (predict w req) m))) [200; 500; 503].
Proof.
  rewrite predict_respond.
  destruct (_pipeline (globals m)) as [p|] eqn:Hp.
  2:{ rewrite (predict_single_unset w _ m Hp). exists []. cbn.
      repeat split; auto using app_nil_r. }
  rewrite (predict_single_set w _ m p Hp).
  destruct (pipeline_call w p (Single (sentence req))) as [raw|e].
  - destruct (item0 raw) as [sc|e].
    + destruct (max_by_score sc) as [best|e].
      * destruct (score_in_range _); cbn [fst snd status_code internal_server_error];
          eexists; (split; [first [apply same_logged, same_after_call
                                  | apply same_after_call]|]);
          cbn; auto 12.
      * destruct (isinstance_RuntimeError e); cbn [fst snd status_code];
          eexists; (split; [first [apply same_logged, same_after_call
                                  | apply same_after_call]|]);
          cbn; auto 12.
    + destruct (isinstance_RuntimeError e); cbn [fst snd status_code];
        eexists; (split; [first [apply same_logged, same_after_call
                                | apply same_after_call]|]);
        cbn; auto 12.
  - destruct (isinstance_RuntimeError e); cbn [fst snd status_code];
      eexists; (split; [first [apply same_logged, same_after_call
                              | apply same_after_call]|]);
      cbn; auto 12.
Qed.

(** The effects of the batch handler, with its status. *)
Lemma predict_batch_effects (w : World) (req : BatchPredictRequest) (m : Machine) :
  exists evs,
    same_globals_more_trace m
      (snd (respond BatchBody (predict_batch_endpoint w req) m)) evs
    /\ loads evs = []
    /\ (inferences evs = [] \/ inferences evs = [Many (sentences req) 16])
    /\ In (status_code (fst (respond BatchBody (predict_batch_endpoint w req) m)))
          [200; 500; 503].
Proof.
  rewrite predict_batch_respond.
  destruct (_pipeline (globals m)) as [p|] eqn:Hp.
  2:{ rewrite (predict_batch_unset w _ m Hp). exists []. cbn.
      repeat split; auto using app_nil_r. }
  rewrite (predict_batch_set w _ m p Hp).
  destruct (pipeline_call w p (Many (sentences req) 16)) as [raw|e].
  - destruct (batch_loop (combine (sentences req) raw)) as [rs|e].
    + destruct (items_of rs) as [items|e] eqn:Hitems.
      * cbn [fst snd status_code]. eexists. split; [apply same_after_call|].
        cbn; auto 12.
      * apply items_of_raise in Hitems. subst e.
        cbn [exn_cls fst snd status_code internal_server_error].
        eexists. split; [apply same_logged, same_after_call|]. cbn; auto 12.
    + destruct (isinstance_RuntimeError e); cbn [fst snd status_code];
        eexists; (split; [first [apply same_logged, same_after_call
                                | apply same_after_call]|]);
        cbn; auto 12.
  - destruct (isinstance_RuntimeError e); cbn [fst snd status_code];
      eexists; (split; [first [apply same_logged, same_after_call
                              | apply same_after_call]|]);
      cbn; auto 12.
Qed.

(** X8.  No request ever changes the cached pipeline or the recorded load
    latency, and none triggers a download: each of the three routes leaves the
    singletons as they were and only appends events to the trace, among which
    there is no download and at most one pipeline call. *)
Theorem requests_leave_the_singletons_alone (w : World) (b : json) (m : Machine) :
  (exists evs, same_globals_more_trace m (snd (POST_predict w b m)) evs
               /\ loads evs = [] /\ length (inferences evs) <= 1)
  /\ (exists evs, same_globals_more_trace m (snd (POST_predict_batch w b m)) evs
                  /\ loads evs = [] /\ length (inferences evs) <= 1)
  /\ (exists evs, same_globals_more_trace m (snd (GET_health w m)) evs
                  /\ loads evs = [] /\ length (inferences evs) <= 1).
Proof.
  split; [|split].
  - unfold POST_predict. destruct (PredictRequest_validate b) as [req|v].
    + destruct (predict_effects w req m) as (evs & Hs & Hl & Hi & _).
      exists evs. repeat split; try apply Hs; try assumption.
      destruct Hi as [-> | ->]; simpl; lia.
    + exists []. repeat split; try reflexivity; [symmetry; apply app_nil_r | simpl; lia].
  - unfold POST_predict_batch. destruct (BatchPredictRequest_validate b) as [req|v].
    + destruct (predict_batch_effects w req m) as (evs & Hs & Hl & Hi & _).
      exists evs. repeat split; try apply Hs; try assumption.
      destruct Hi as [-> | ->]; simpl; lia.
    + exists []. repeat split; try reflexivity; [symmetry; apply app_nil_r | simpl; lia].
  - rewrite health_run.
    exists []. repeat split; try reflexivity; [symmetry; apply app_nil_r | simpl; lia].
Qed.

(** X9.  The POST routes answer with status 200, 422, 500 or 503 and nothing
    else, the status is 422 exactly when the body fails validation, and
    [GET /health] answers 200 or 503 only. *)
Theorem status_codes_are_closed (w : World) (b : json) (m : Machine) :
  In (status_of (POST_predict w b m)) [200; 422; 500; 503]
  /\ (status_of (POST_predict w b m) = 422
      <-> exists v, PredictRequest_validate b = Invalid v)
  /\ In (status_of (POST_predict_batch w b m)) [200; 422; 500; 503]
  /\ (status_of (POST_predict_batch w b m) = 422
      <-> exists v, BatchPredictRequest_validate b = Invalid v)
  /\ In (status_of (GET_health w m)) [200; 503].
Proof.
  unfold status_of. repeat split.
  - unfold POST_predict. destruct (PredictRequest_validate b) as [req|v].
    + destruct (predict_effects w req m) as (_ & _ & _ & _ & [H | [H | [H | []]]]);
        rewrite <- H; simpl; auto.
    + simpl; auto.
  - unfold POST_predict. destruct (PredictRequest_validate b) as [req|v]; [|eauto].
    destruct (predict_effects w req m) as (_ & _ & _ & _ & [H | [H | [H | []]]]);
      rewrite <- H; discriminate.
  - intros [v Hv]. unfold POST_predict. rewrite Hv. reflexivity.
  - unfold POST_predict_batch. destruct (BatchPredictRequest_validate b) as [req|v].
    + destruct (predict_batch_effects w req m) as (_ & _ & _ & _ & [H | [H | [H | []]]]);
        rewrite <- H; simpl; auto.
    + simpl; auto.
  - unfold POST_predict_batch.
    destruct (BatchPredictRequest_validate b) as [req|v]; [|eauto].
    destruct (predict_batch_effects w req m) as (_ & _ & _ & _ & [H | [H | [H | []]]]);
      rewrite <- H; discriminate.
  - intros [v Hv]. unfold POST_predict_batch. rewrite Hv. reflexivity.
  - rewrite health_run. destruct (_pipeline (globals m)); simpl; auto.
Qed.

(* ------------------------------------------------------------------------- *)
(** ** Degenerate provider answers                                            *)
(* ------------------------------------------------------------------------- *)

Lemma batch_loop_empty_list (pairs : list (str * list Entry)) :
  Exists (fun pr => snd pr = []) pairs -> batch_loop pairs = Raise empty_max.
Proof.
  induction 1 as [[s sc] rest Hsc | [s sc] rest _ IH]; simpl.
  - simpl in Hsc. subst sc. reflexivity.
  - destruct sc as [|e sc']; [reflexivity|]. simpl. rewrite IH. reflexivity.
Qed.

(** X10.  On a loaded model, a provider answer with no score list for a
    sentence, or with an empty score list, is answered 500 with the fixed
    detail of the route ("Prediction failed." / "Batch prediction failed.");
    in a batch one empty score list among those paired with a sentence is
    enough, and no partial result is returned. *)
Theorem empty_provider_answer_is_a_500 (w : World) (m : Machine) (p : Pipeline) :
  _pipeline (globals m) = Some p ->
  (forall req,
      (pipeline_call w p (Single (sentence req)) = Ok []
       \/ exists others, pipeline_call w p (Single (sentence req)) = Ok ([] :: others)) ->
      fst (respond PredictBody (predict w req) m)
      = mkResponse 500 (Detail "Prediction failed."))
  /\ (forall req raw,
         pipeline_call w p (Many (sentences req) 16) = Ok raw ->
         Exists (fun sc => sc = []) (firstn (length (sentences req)) raw) ->
         fst (respond BatchBody (predict_batch_endpoint w req) m)
         = mkResponse 500 (Detail "Batch prediction failed.")).
Proof.
  intro Hp. split.
  - intros req Hcall. rewrite predict_respond, (predict_single_set w _ m p Hp).
    destruct Hcall as [-> | [others ->]]; reflexivity.
  - intros req raw Hcall Hex.
    rewrite predict_batch_respond, (predict_batch_set w _ m p Hp), Hcall.
    rewrite batch_loop_empty_list; [reflexivity|].
    rewrite <- map_snd_combine in Hex. apply Exists_exists in Hex as (sc & Hin & ->).
    apply in_map_iff in Hin as (pr & Hsnd & Hin).
    apply Exists_exists. exists pr. auto.
Qed.

Lemma empty_provider_answer_is_a_500_witness :
  fst (respond PredictBody (predict w_empty_answers (mkPredictRequest denies)) m_ready)
  = mkResponse 500 (Detail "Prediction failed.")
  /\ fst (respond BatchBody
            (predict_batch_endpoint w_empty_answers
               (mkBatchPredictRequest [denies; history])) m_ready)
     = mkResponse 500 (Detail "Batch prediction failed.").
Proof.
  destruct (empty_provider_answer_is_a_500 w_empty_answers m_ready cpu_pipeline eq_refl)
    as [Hs Hb].
  split.
  - apply Hs. left. reflexivity.
  - apply (Hb (mkBatchPredictRequest [denies; history])
              [three_scores (1 # 10) (8 # 10) (1 # 10); []] eq_refl).
    apply Exists_cons_tl, Exists_cons_hd. reflexivity.
Defined.

(** X11.  On a loaded model, when the rounded score of the selected entry
    lies outside [0, 1] the response model refuses it outside the handler's
    [try]: the client gets the 500 of the generic exception handler, not the
    route's own "Prediction failed.", and the unhandled error is logged. *)
Theorem out_of_range_score_is_unhandled (w : World) (m : Machine) (p : Pipeline)
        (req : PredictRequest) (all_scores : list Entry) (others : list (list Entry))
        (best : Entry) :
  _pipeline (globals m) = Some p ->
  pipeline_call w p (Single (sentence req)) = Ok (all_scores :: others) ->
  first_argmax all_scores best ->
  score_in_range (py_round (entry_score best) 4) = false ->
  fst (respond PredictBody (predict w req) m)
  = mkResponse 500 (Detail "Internal server error. Please try again later.")
  /\ last (trace (snd (respond PredictBody (predict w req) m))) (Log INFO MsgReady)
     = Log ERROR (MsgUnhandled (mkExn ValidationError "score")).
Proof.
  intros Hp Hcall Harg Hrange.
  assert (max_by_score all_scores = Ok best) as Hmax.
  { destruct (max_by_score_first_argmax all_scores) as (b' & Hb' & Harg').
    - destruct Harg as (before & after & -> & _). destruct before; discriminate.
    - rewrite Hb'. f_equal. exact (first_argmax_unique _ _ _ Harg' Harg). }
  rewrite predict_respond, (predict_single_set w _ m p Hp), Hcall.
  cbn [item0]. rewrite Hmax. cbn [pred_score]. rewrite Hrange.
  split; [reflexivity|]. cbn [snd logged trace]. apply last_last.
Qed.

Lemma out_of_range_score_is_unhandled_witness :
  fst (respond PredictBody (predict w_score_above_one (mkPredictRequest denies)) m_ready)
  = mkResponse 500 (Detail "Internal server error. Please try again later.").
Proof.
  refine (proj1 (out_of_range_score_is_unhandled w_score_above_one m_ready cpu_pipeline
                   (mkPredictRequest denies)
                   [mkEntry "PRESENT" (3 # 2); mkEntry "ABSENT" (1 # 10)] []
                   (mkEntry "PRESENT" (3 # 2)) eq_refl eq_refl _ eq_refl)).
  exists [], [mkEntry "ABSENT" (1 # 10)]. split; [reflexivity|]. split.
  - intros e [].
  - intros e [<- | []]. unfold Qle. simpl. lia.
Defined.

(** X12.  On a loaded model, a valid sentence whose provider answer is a
    non-empty score list with every score between 0 and 1 is always answered
    200, with the label of the first top-scoring entry and its score rounded
    to four decimals. *)
Theorem scores_in_unit_interval_give_200 (w : World) (b : json) (m : Machine)
        (req : PredictRequest) (p : Pipeline) (all_scores : list Entry)
        (others : list (list Entry)) :
  PredictRequest_validate b = Valid req ->
  _pipeline (globals m) = Some p ->
  pipeline_call w p (Single (sentence req)) = Ok (all_scores :: others) ->
  all_scores <> [] ->
  Forall (fun e => (0 <= entry_score e)%Q /\ (entry_score e <= 1)%Q) all_scores ->
  exists best,
    first_argmax all_scores best
    /\ fst (POST_predict w b m)
       = mkResponse 200
           (PredictBody (mkPredictResponse (entry_label best)
                           (py_round (entry_score best) 4))).
Proof.
  intros Hv Hp Hcall Hne Hall.
  destruct (max_by_score_first_argmax all_scores Hne) as (best & Hmax & Harg).
  exists best. split; [exact Harg|].
  unfold POST_predict. rewrite Hv, predict_respond, (predict_single_set w _ m p Hp), Hcall.
  cbn [item0]. rewrite Hmax. cbn [pred_score pred_label].
  rewrite Forall_forall in Hall.
  destruct (Hall best (first_argmax_In _ _ Harg)) as [H0 H1].
  destruct (py_round_unit_interval (entry_score best) 4 H0 H1) as [Hr0 Hr1].
  assert (score_in_range (py_round (entry_score best) 4) = true) as ->
      by (apply score_in_range_true; auto).
  reflexivity.
Qed.

Lemma scores_in_unit_interval_give_200_witness :
  exists best,
    first_argmax (three_scores (1 # 10) (8 # 10) (1 # 10)) best
    /\ fst (POST_predict w_ok body_one m_ready)
       = mkResponse 200
           (PredictBody (mkPredictResponse (entry_label best)
                           (py_round (entry_score best) 4))).
Proof.
  apply (scores_in_unit_interval_give_200 w_ok body_one m_ready (mkPredictRequest denies)
           cpu_pipeline (three_scores (1 # 10) (8 # 10) (1 # 10)) []
           eq_refl eq_refl eq_refl).
  - discriminate.
  - repeat constructor; unfold Qle; simpl; lia.
Defined.

(** X13.  The score of a 200 response of [POST /predict] is within 0.00005 of
    the greatest score of the provider's answer: it exceeds the top score by
    at most that much, and no entry of the answer scores more than the
    response score plus 0.00005. *)
Theorem response_score_is_close_to_the_top_score (w : World) (b : json) (m : Machine) :
  status_of (POST_predict w b m) = 200 ->
  exists r req p all_scores others best,
    content (fst (POST_predict w b m)) = PredictBody r
    /\ PredictRequest_validate b = Valid req
    /\ _pipeline (globals m) = Some p
    /\ pipeline_call w p (Single (sentence req)) = Ok (all_scores :: others)
    /\ first_argmax all_scores best
    /\ (score r <= entry_score best + (1 # 20000))%Q
    /\ forall e, In e all_scores ->
                 (entry_score e <= score r + (1 # 20000))%Q.
Proof.
  unfold status_of, POST_predict.
  destruct (PredictRequest_validate b) as [req|v]; [|simpl; discriminate].
  rewrite predict_respond.
  destruct (_pipeline (globals m)) as [p|] eqn:Hp.
  2:{ rewrite (predict_single_unset w _ m Hp). simpl. discriminate. }
  rewrite (predict_single_set w _ m p Hp).
  destruct (pipeline_call w p (Single (sentence req))) as [raw|e] eqn:Hcall.
  2:{ destruct (isinstance_RuntimeError e); simpl; discriminate. }
  destruct raw as [|all_scores others]; simpl item0; cbv iota.
  { simpl. discriminate. }
  destruct (max_by_score all_scores) as [best|e] eqn:Hmax.
  2:{ destruct (isinstance_RuntimeError e); simpl; discriminate. }
  cbn [pred_score pred_label].
  destruct (score_in_range (py_round (entry_score best) 4)); [|simpl; discriminate].
  intros _. apply max_by_score_ok in Hmax.
  eexists. exists req, p, all_scores, others, best. cbn [fst content score].
  do 4 (split; [first [reflexivity | exact Hcall | exact Hp]|]).
  split; [exact Hmax|].
  destruct (py_round_close (entry_score best) 4) as [Hup Hdown].
  change (2 * pow10 4)%positive with 20000%positive in Hup, Hdown.
  cbn [score]. split; [lra|].
  intros e Hin.
  assert (entry_score e <= entry_score best)%Q as Hle.
  { destruct Hmax as (before & after & -> & Hlt & Hle).
    apply in_app_or in Hin as [Hin | [<- | Hin]].
    - apply Qlt_le_weak, Hlt, Hin.
    - apply Qle_refl.
    - apply Hle, Hin. }
  lra.
Qed.

Lemma response_score_is_close_to_the_top_score_witness :
  exists r req p all_scores others best,
    content (fst (POST_predict w_ok body_one m_ready)) = PredictBody r
    /\ PredictRequest_validate body_one = Valid req
    /\ _pipeline (globals m_ready) = Some p
    /\ pipeline_call w_ok p (Single (sentence req)) = Ok (all_scores :: others)
    /\ first_argmax all_scores best
    /\ (score r <= entry_score best + (1 # 20000))%Q
    /\ forall e, In e all_scores ->
                 (entry_score e <= score r + (1 # 20000))%Q.
Proof.
  apply (response_score_is_close_to_the_top_score w_ok body_one m_ready). reflexivity.
Defined.

(* ------------------------------------------------------------------------- *)
(** ** Batch against single, and what responses depend on                     *)
(* ------------------------------------------------------------------------- *)

(** X14.  On a loaded model whose provider answers a batch with, for each
    sentence, the same non-empty score list it gives that sentence alone,
    [predict_batch] returns for each sentence exactly the label and score
    [predict_single] returns for it, in the order of the sentences. *)
Theorem batch_agrees_with_one_by_one (w : World) (m : Machine) (p : Pipeline)
        (ss : list str) (raw : list (list Entry)) :
  _pipeline (globals m) = Some p ->
  pipeline_call w p (Many ss 16) = Ok raw ->
  Forall2 (fun s sc => pipeline_call w p (Single s) = Ok [sc] /\ sc <> []) ss raw ->
  exists rs,
    fst (predict_batch w ss m) = Ok rs
    /\ Forall2 (fun s br =>
                  bp_sentence br = s
                  /\ fst (predict_single w s m)
                     = Ok (mkPrediction (bp_label br) (bp_score br)))
               ss rs.
Proof.
  intros Hp Hcall Hall.
  assert (exists rs,
             batch_loop (combine ss raw) = Ok rs
             /\ Forall2 (fun s br =>
                           bp_sentence br = s
                           /\ fst (predict_single w s m)
                              = Ok (mkPrediction (bp_label br) (bp_score br)))
                        ss rs) as (rs & Hloop & Hrs).
  { clear Hcall. induction Hall as [|s sc ss' raw' [Hs Hne] _ (rs & IH & Hrs)]; simpl.
    - exists []. split; [reflexivity | constructor].
    - destruct (max_by_score_first_argmax sc Hne) as (best & Hmax & _).
      rewrite Hmax, IH. eexists. split; [reflexivity|].
      constructor; [|exact Hrs]. cbn [bp_sentence bp_label bp_score].
      split; [reflexivity|].
      rewrite (predict_single_set w s m p Hp), Hs. cbn [item0]. rewrite Hmax.
      reflexivity. }
  exists rs. split; [|exact Hrs].
  rewrite (predict_batch_set w ss m p Hp), Hcall, Hloop. reflexivity.
Qed.

Lemma batch_agrees_with_one_by_one_witness :
  exists rs,
    fst (predict_batch w_ok [denies; history] m_ready) = Ok rs
    /\ Forall2 (fun s br =>
                  bp_sentence br = s
                  /\ fst (predict_single w_ok s m_ready)
                     = Ok (mkPrediction (bp_label br) (bp_score br)))
               [denies; history] rs.
Proof.
  apply (batch_agrees_with_one_by_one w_ok m_ready cpu_pipeline [denies; history]
           [three_scores (1 # 10) (8 # 10) (1 # 10);
            three_scores (1 # 10) (8 # 10) (1 # 10)] eq_refl eq_refl).
  repeat constructor; discriminate.
Defined.

(** X15.  The response to a POST depends on the world only through the
    answers of the pipeline: two worlds whose pipelines answer alike give the
    same status and body, whatever their clocks, their CUDA availability or
    their hub.  Timing only shows in the log. *)
Theorem responses_depend_on_the_pipeline_only (w w' : World) (b : json) (m : Machine) :
  (forall p inp, pipeline_call w p inp = pipeline_call w' p inp) ->
  fst (POST_predict w b m) = fst (POST_predict w' b m)
  /\ fst (POST_predict_batch w b m) = fst (POST_predict_batch w' b m).
Proof.
  intro Hsame. split.
  - unfold POST_predict. destruct (PredictRequest_validate b) as [req|v]; [|reflexivity].
    rewrite !predict_respond.
    destruct (_pipeline (globals m)) as [p|] eqn:Hp.
    2:{ rewrite !(predict_single_unset _ _ m Hp). reflexivity. }
    rewrite !(predict_single_set _ _ m p Hp), <- Hsame.
    destruct (pipeline_call w p (Single (sentence req))) as [raw|e].
    + destruct (item0 raw) as [sc|e].
      * destruct (max_by_score sc) as [best|e].
        -- cbn [pred_score]. destruct (score_in_range _); reflexivity.
        -- destruct (isinstance_RuntimeError e); reflexivity.
      * destruct (isinstance_RuntimeError e); reflexivity.
    + destruct (isinstance_RuntimeError e); reflexivity.
  - unfold POST_predict_batch.
    destruct (BatchPredictRequest_validate b) as [req|v]; [|reflexivity].
    rewrite !predict_batch_respond.
    destruct (_pipeline (globals m)) as [p|] eqn:Hp.
    2:{ rewrite !(predict_batch_unset _ _ m Hp). reflexivity. }
    rewrite !(predict_batch_set _ _ m p Hp), <- Hsame.
    destruct (pipeline_call w p (Many (sentences req) 16)) as [raw|e].
    + destruct (batch_loop (combine (sentences req) raw)) as [rs|e].
      * destruct (items_of rs) as [items|e]; [reflexivity|].
        destruct (exn_cls e); reflexivity.
      * destruct (isinstance_RuntimeError e); reflexivity.
    + destruct (isinstance_RuntimeError e); reflexivity.
Qed.

Lemma responses_depend_on_the_pipeline_only_witness :
  fst (POST_predict w_ok body_one m_ready)
  = fst (POST_predict
           (mkWorld true (fun _ => 7%Q) (fun _ => Raise hub_unreachable)
                    (fun _ => Raise hub_unreachable) (pipeline_call w_ok))
           body_one m_ready).
Proof.
  refine (proj1 (responses_depend_on_the_pipeline_only w_ok
                   (mkWorld true (fun _ => 7%Q) (fun _ => Raise hub_unreachable)
                            (fun _ => Raise hub_unreachable) (pipeline_call w_ok))
                   body_one m_ready _)).
  intros p inp. reflexivity.
Defined.

(** X17.  [max(all_scores, key=score)] raises exactly on the empty list, and
    otherwise returns an entry [best] exactly when [best] is the first entry
    with the greatest score: the selection is fully determined by the order
    the provider lists its entries in. *)
Theorem max_by_score_characterised (l : list Entry) :
  ((exists e, max_by_score l = Raise e) <-> l = [])
  /\ (forall best, max_by_score l = Ok best <-> first_argmax l best).
Proof.
  split.
  - destruct l as [|b rest]; simpl; split.
    + reflexivity.
    + intros _. eexists. reflexivity.
    + intros [e He]. discriminate.
    + discriminate.
  - intro best. split; [apply max_by_score_ok|].
    intro Harg.
    destruct (max_by_score_first_argmax l) as (b' & Hb' & Harg').
    + destruct Harg as (before & after & -> & _). destruct before; discriminate.
    + rewrite Hb'. f_equal. exact (first_argmax_unique _ _ _ Harg' Harg).
Qed.

Lemma accepted_batch_bounds (b : json) (req : BatchPredictRequest) :
  BatchPredictRequest_validate b = Valid req ->
  1 <= length (sentences req) /\ length (sentences req) <= 64.
Proof.
  intro H. apply BatchPredictRequest_validate_valid in H as (ss & _ & Hl & _ & ->).
  cbn [sentences]. rewrite length_map. lia.
Qed.

(** X18.  Whatever the provider answers, a 200 response to a valid batch
    never lists more results than sentences were sent: the sentences of its
    items are an initial segment of the validated sentences, in order, there
    are at most 64 of them, [count] is their number, and every score lies
    between 0 and 1. *)
Theorem batch_response_within_request (w : World) (b : json) (m : Machine)
        (req : BatchPredictRequest) :
  BatchPredictRequest_validate b = Valid req ->
  status_of (POST_predict_batch w b m) = 200 ->
  exists items,
    content (fst (POST_predict_batch w b m))
    = BatchBody (mkBatchPredictResponse items (length items))
    /\ map item_sentence items = firstn (length items) (sentences req)
    /\ length items <= length (sentences req) <= 64
    /\ Forall (fun it => (0 <= item_score it)%Q /\ (item_score it <= 1)%Q) items.
Proof.
  intros Hv. unfold status_of, POST_predict_batch. rewrite Hv, predict_batch_respond.
  destruct (accepted_batch_bounds b req Hv) as [_ H64].
  destruct (_pipeline (globals m)) as [p|] eqn:Hp.
  2:{ rewrite (predict_batch_unset w _ m Hp). simpl. discriminate. }
  rewrite (predict_batch_set w _ m p Hp).
  destruct (pipeline_call w p (Many (sentences req) 16)) as [raw|e].
  2:{ destruct (isinstance_RuntimeError e); simpl; discriminate. }
  destruct (batch_loop (combine (sentences req) raw)) as [rs|e] eqn:Hloop.
  2:{ destruct (isinstance_RuntimeError e); simpl; discriminate. }
  destruct (items_of rs) as [items|e] eqn:Hitems.
  2:{ apply items_of_raise in Hitems. subst e. simpl. discriminate. }
  intros _. exists items. cbn [fst content].
  apply items_of_ok in Hitems as [Hrange ->].
  destruct (batch_loop_sentences _ _ Hloop) as [Hl Hs].
  rewrite length_combine in Hl. rewrite map_fst_combine in Hs.
  rewrite length_map, map_map. cbn [item_sentence].
  split; [reflexivity|]. split; [|split].
  - change (map (fun x : BatchPrediction => bp_sentence x) rs) with (map bp_sentence rs).
    rewrite Hs, Hl.
    destruct (Nat.min_spec (length (sentences req)) (length raw)) as [[Hlt ->] | [Hge ->]].
    + rewrite !firstn_all2 by lia. reflexivity.
    + reflexivity.
  - lia.
  - rewrite Forall_forall in *. intros it Hin.
    apply in_map_iff in Hin as (r & <- & Hr). cbn [item_score].
    apply score_in_range_true, Hrange, Hr.
Qed.

Lemma batch_response_within_request_witness :
  exists items,
    content (fst (POST_predict_batch w_short body_two m_ready))
    = BatchBody (mkBatchPredictResponse items (length items))
    /\ map item_sentence items = firstn (length items) [denies; history]
    /\ length items <= length [denies; history] <= 64
    /\ Forall (fun it => (0 <= item_score it)%Q /\ (item_score it <= 1)%Q) items.
Proof.
  exact (batch_response_within_request w_short body_two m_ready
           (mkBatchPredictRequest [denies; history]) eq_refl eq_refl).
Defined.

(** X19.  A failed load does not prevent a later one: [load_model] keeps no
    record of the failure, so calling it again once the downloads succeed
    loads the model as if nothing had happened before. *)
Theorem load_can_be_retried (w w' : World) (m : Machine) (e : exn)
        (tok : Tokenizer) (mdl : SequenceClassifier) :
  _pipeline (globals m) = None ->
  (tokenizer_from_pretrained w MODEL_NAME = Raise e
   \/ exists tok0, tokenizer_from_pretrained w MODEL_NAME = Ok tok0
                   /\ model_from_pretrained w MODEL_NAME = Raise e) ->
  tokenizer_from_pretrained w' MODEL_NAME = Ok tok ->
  model_from_pretrained w' MODEL_NAME = Ok mdl ->
  let m1 := snd (load_model w m) in
  let m2 := snd (load_model w' m1) in
  fst (load_model w m) = Raise e
  /\ fst (load_model w' m1) = Ok tt
  /\ _pipeline (globals m2)
     = Some (mkPipeline "text-classification" mdl tok (chosen_device w') None true 512)
  /\ status_of (GET_health w' m2) = 200.
Proof.
  intros Hnone Hfail Htok Hmdl m1 m2.
  destruct (load_model_download_fails w m e Hnone Hfail) as (Hraise & Hg & _).
  assert (_pipeline (globals m1) = None) as Hnone1 by (unfold m1; rewrite Hg; exact Hnone).
  pose proof (load_model_fresh w' m1 tok mdl Hnone1 Htok Hmdl) as Hrun.
  repeat split.
  - exact Hraise.
  - rewrite Hrun. reflexivity.
  - unfold m2. rewrite Hrun. reflexivity.
  - unfold status_of, m2. rewrite health_run, Hrun. reflexivity.
Qed.

Lemma load_can_be_retried_witness :
  fst (load_model w_hub_down m_boot) = Raise hub_unreachable
  /\ fst (load_model w_ok (snd (load_model w_hub_down m_boot))) = Ok tt
  /\ status_of (GET_health w_ok
                  (snd (load_model w_ok (snd (load_model w_hub_down m_boot))))) = 200.
Proof.
  destruct (load_can_be_retried w_hub_down w_ok m_boot hub_unreachable
              (TokenizerOf MODEL_NAME) (ClassifierOf MODEL_NAME)
              eq_refl (or_introl eq_refl) eq_refl eq_refl) as (H1 & H2 & _ & H4).
  split; [exact H1 | split; [exact H2 | exact H4]].
Defined.
